(** * autohost: the HTTP adapter (src/http/adapter.js)

    A shallow embedding of the route builder, the authorization gate and
    the per-request dispatcher of [src/http/adapter.js], and the
    properties of the specification settled against it.

    The adapter is effectful JavaScript.  Its effects are calls on
    collaborators (metrics, log, provider, envelope, response); they are
    modelled as a trace of events inside a small state-and-exception
    monad.  A promise is modelled by its settlement; a continuation
    attached with [then] runs after an [AsyncHop] marker, and an
    exception raised by a continuation rejects the derived promise, as
    Promises/A+ prescribes. *)

From Stdlib Require Import String Ascii List ZArith Bool Lia.
Import ListNotations.
Open Scope string_scope.
Open Scope Z_scope.
Set Warnings "-register-all".

(** ** JavaScript values *)

Module Js.

(** The values that flow through the adapter: handler results, thrown
    values, promise settlements, configuration flags. *)
Inductive JsValue : Type :=
| VUndefined
| VNull
| VBool (b : bool)
| VNum (n : Z)
| VNaN
| VStr (s : string)
| VError (message stack : string)
| VObject (props : list (string * JsValue))
| VPromise (p : Settlement)
with Settlement : Type :=
| Fulfilled (v : JsValue)
| Rejected (e : JsValue)
| Pending.

(** ToBoolean, as tested by [if ( x )] and [x || y]. *)
Definition truthy (v : JsValue) : bool :=
  match v with
  | VUndefined | VNull | VNaN => false
  | VBool b => b
  | VNum n => negb (n =? 0)
  | VStr s => negb (String.eqb s "")
  | VError _ _ | VObject _ | VPromise _ => true
  end.

Fixpoint lookup (k : string) (props : list (string * JsValue)) : JsValue :=
  match props with
  | [] => VUndefined
  | (k', v) :: rest => if String.eqb k k' then v else lookup k rest
  end.

(** What a property read [v.k] does. *)
Inductive PropRead : Type :=
| Read (v : JsValue)
| ReadTypeError.

(** [v.stack]: a TypeError on [undefined] and [null], the stack of an
    Error, the own property of an object, [undefined] on the rest. *)
Definition getStack (v : JsValue) : PropRead :=
  match v with
  | VUndefined | VNull => ReadTypeError
  | VError _ stack => Read (VStr stack)
  | VObject props => Read (lookup "stack" props)
  | _ => Read VUndefined
  end.

(** What [v.then] is, for a truthy [v]. *)
Inductive ThenProp : Type :=
| ThenMethod (p : Settlement)
| ThenOther (v : JsValue).

Definition getThen (v : JsValue) : ThenProp :=
  match v with
  | VPromise p => ThenMethod p
  | VObject props => ThenOther (lookup "then" props)
  | _ => ThenOther VUndefined
  end.

(** A deferred value exposes a [then] method; every other value is
    plain. *)
Definition isDeferred (v : JsValue) : bool :=
  match getThen v with ThenMethod _ => true | ThenOther _ => false end.

Definition isPlain (v : JsValue) : bool := negb (isDeferred v).

(** A [then] property that is truthy and not a function: the probe
    [result.then] passes, and the call [result.then( ... )] throws. *)
Definition hasUncallableThen (v : JsValue) : bool :=
  match getThen v with ThenMethod _ => false | ThenOther t => truthy t end.

(** [String.prototype.indexOf]: the index of the first occurrence, or -1. *)
Fixpoint indexOfFrom (needle hay : string) (i : Z) : Z :=
  if String.prefix needle hay then i
  else match hay with
       | EmptyString => -1
       | String _ rest => indexOfFrom needle rest (i + 1)
       end.

Definition indexOf (hay needle : string) : Z := indexOfFrom needle hay 0.

(** [a || ''] on an optional string. *)
Definition orEmpty (s : option string) : string :=
  match s with Some x => x | None => "" end.

End Js.
Import Js.

(** ** Effects *)

Inductive Metric : Type :=
| authorizationAttempts
| authorizationGrants
| authorizationRejections
| authorizationErrors.

Definition Metric_eqb (a b : Metric) : bool :=
  match a, b with
  | authorizationAttempts, authorizationAttempts
  | authorizationGrants, authorizationGrants
  | authorizationRejections, authorizationRejections
  | authorizationErrors, authorizationErrors => true
  | _, _ => false
  end.

(** The user attached to a request by the authentication middleware. *)
Record User : Type := {
  user_name : JsValue;
  user_username : JsValue;
  user_id : JsValue;
  user_json : string  (* JSON.stringify( user ) *)
}.

(** [state.metrics.authorizationTimer()] and
    [state.metrics.timer( key )]. *)
Inductive Timer : Type :=
| AuthorizationTimer
| RouteTimer (key : list string).

(** The calls the adapter makes on its collaborators, in order. *)
Inductive Event : Type :=
| LogDebug (fmt : string) (args : list JsValue)
| LogError (fmt : string) (args : list JsValue)
| CounterRecord (m : Metric) (n : Z) (name : string)
| TimerCreated (t : Timer)
| TimerRecorded (t : Timer) (name : string)
| ProviderCalled (user : User) (action : string) (context : JsValue)
| AsyncHop
| EnvelopeCreated (metricKey : list string)
| HandlerInvoked
| HandleReturn (x : JsValue)
| ResStatus (code : Z)
| ResSend (body : string).

(** A listener registered with [res.once( 'finish', ... )]. *)
Inductive Listener : Type :=
| RecordTimer (t : Timer) (name : string).

(** [checkPermissionFor.bind( undefined, state, req.user, req.context )] *)
Record BoundCheck : Type := { bound_user : User; bound_context : JsValue }.

(** The mutable world of one request: the trace so far, the response
    ([_headerSent], its one-shot 'finish' listeners) and the fields the
    dispatcher attaches to the request. *)
Record World : Type := {
  trace : list Event;
  headerSent : bool;
  finishOnce : list Listener;
  req_metricKey : option (list string);
  req_resource : option string;
  req_action : option string;
  req_checkPermission : option BoundCheck
}.

Definition newWorld (sent : bool) : World :=
  {| trace := []; headerSent := sent; finishOnce := [];
     req_metricKey := None; req_resource := None; req_action := None;
     req_checkPermission := None |}.

Inductive Completion (A : Type) : Type :=
| Normal (a : A)
| Thrown (e : JsValue).
Arguments Normal {A} a.
Arguments Thrown {A} e.

Definition M (A : Type) : Type := World -> Completion A * World.

Definition ret {A} (a : A) : M A := fun w => (Normal a, w).

Definition bind {A B} (m : M A) (k : A -> M B) : M B :=
  fun w => match m w with
           | (Normal a, w') => k a w'
           | (Thrown e, w') => (Thrown e, w')
           end.

Definition throw {A} (e : JsValue) : M A := fun w => (Thrown e, w).

Definition tryCatch {A} (body : M A) (handler : JsValue -> M A) : M A :=
  fun w => match body w with
           | (Normal a, w') => (Normal a, w')
           | (Thrown e, w') => handler e w'
           end.

Notation "x <- m ;; k" := (bind m (fun x => k))
  (at level 61, m at next level, right associativity).
Notation "m ;; k" := (bind m (fun _ => k))
  (at level 61, right associativity).

Definition withTrace (w : World) (t : list Event) : World :=
  match w with
  | Build_World _ sent listeners mk r a c => Build_World t sent listeners mk r a c
  end.

Definition withHeaderSent (w : World) (b : bool) : World :=
  match w with
  | Build_World t _ listeners mk r a c => Build_World t b listeners mk r a c
  end.

Definition withFinishOnce (w : World) (l : list Listener) : World :=
  match w with
  | Build_World t sent _ mk r a c => Build_World t sent l mk r a c
  end.

Definition emit (e : Event) : M unit :=
  fun w => (Normal tt, withTrace w (trace w ++ [e])).

Definition typeError (what : string) : JsValue := VError what "TypeError".

(** Reading [err.stack] inside an argument list. *)
Definition readStack (err : JsValue) : M JsValue :=
  match getStack err with
  | Read v => ret v
  | ReadTypeError => throw (typeError "Cannot read property 'stack'")
  end.

(** *** Promises *)

(** The continuation has run: its value fulfils the derived promise, an
    exception it raised rejects it. *)
Definition settle (m : M JsValue) : M Settlement :=
  fun w => match m w with
           | (Normal v, w') => (Normal (Fulfilled v), w')
           | (Thrown e, w') => (Normal (Rejected e), w')
           end.

(** [p.then( onFulfilled, onRejected )]; [None] is an absent handler. *)
Definition then_ (p : Settlement) (onFulfilled : JsValue -> M JsValue)
    (onRejected : option (JsValue -> M JsValue)) : M Settlement :=
  match p with
  | Pending => ret Pending
  | Fulfilled v => emit AsyncHop ;; settle (onFulfilled v)
  | Rejected e =>
      match onRejected with
      | Some h => emit AsyncHop ;; settle (h e)
      | None => ret (Rejected e)
      end
  end.

(** Counting events of a kind in a trace. *)
Definition count (p : Event -> bool) (l : list Event) : nat :=
  length (filter p l).

Arguments count : simpl never.

Definition isCounter (m : Metric) (e : Event) : bool :=
  match e with CounterRecord m' _ _ => Metric_eqb m m' | _ => false end.

Definition isAnyCounter (e : Event) : bool :=
  match e with CounterRecord _ _ _ => true | _ => false end.

Definition isTimerRecorded (name : string) (e : Event) : bool :=
  match e with TimerRecorded _ n => String.eqb n name | _ => false end.

Definition isHandlerInvoked (e : Event) : bool :=
  match e with HandlerInvoked => true | _ => false end.

Definition isHandleReturn (e : Event) : bool :=
  match e with HandleReturn _ => true | _ => false end.

Definition isResponse (e : Event) : bool :=
  match e with ResStatus _ | ResSend _ => true | _ => false end.

Definition isLogError (e : Event) : bool :=
  match e with LogError _ _ => true | _ => false end.

Definition isAsyncHop (e : Event) : bool :=
  match e with AsyncHop => true | _ => false end.

(** ** Data model *)

(** An inbound request, as the dispatcher reads it. *)
Record Request : Type := { req_user : User; req_context : JsValue }.

(** [action.url]: a RegExp, a string, or absent. *)
Inductive UrlPattern : Type :=
| UrlRegExp (source : string)
| UrlString (s : string)
| UrlUndefined.

Record Action : Type := {
  method : string;
  url : UrlPattern;
  (* action.handle.apply( resource, [ envelope ] ): returns or throws *)
  handle : Request -> Completion JsValue
}.

Record Resource : Type := {
  name : string;
  apiPrefix : option string;
  urlPrefix : option string;
  actions : list (string * Action)
}.

Record Config : Type := {
  cfg_apiPrefix : option string;
  cfg_urlPrefix : option string;
  urlStrategy : option (string -> string -> Action -> list Resource -> string);
  handleRouteErrors : JsValue
}.

(** What [state.auth.checkPermission( user, action, context )] does. *)
Inductive ProviderCall : Type :=
| ReturnsPromise (p : Settlement)
| ThrowsSync (e : JsValue).

Definition Provider : Type := User -> string -> JsValue -> ProviderCall.

(** The transport: only its URL join is a function of the model. *)
Record Http : Type := { buildUrl : list string -> string }.

Record State : Type := {
  auth : option Provider;
  config : Config;
  http : Http;
  metrics_prefix : string
}.

Definition withAuth (st : State) (a : option Provider) : State :=
  {| auth := a; config := config st; http := http st;
     metrics_prefix := metrics_prefix st |}.

(** The url a route is registered under: [regex.prefix( p, re )] is kept
    symbolic, regex.js being outside the adapter. *)
Inductive BuiltUrl : Type :=
| RegexPrefixed (prefix : string) (source : string)
| Plain (u : string).

(** ** Route builder *)

Definition isRegExp (u : UrlPattern) : bool :=
  match u with UrlRegExp _ => true | _ => false end.

Definition hasPrefix (st : State) (u : string) : bool :=
  let prefix := buildUrl (http st)
                  [orEmpty (cfg_urlPrefix (config st));
                   orEmpty (cfg_apiPrefix (config st))] in
  indexOf u prefix =? 0.

(** The [prefix] local of [buildActionUrl]. *)
Definition apiPrefixFor (st : State) (resource : Resource) : string :=
  match apiPrefix resource with
  | Some p => p
  | None => match cfg_apiPrefix (config st) with
            | None => "api"
            | Some p => p
            end
  end.

(** The [resourceIndex] and [resourcePrefix] locals of the default branch. *)
Definition resourceIndex (resourceName : string) (u : UrlPattern) : Z :=
  match u with
  | UrlString s => if String.eqb s "" then -1 else indexOf s resourceName
  | _ => -1
  end.

Definition resourcePrefix (resourceName : string) (u : UrlPattern) : string :=
  let i := resourceIndex resourceName u in
  if (i =? 0) || (i =? 1) then "" else resourceName.

Definition urlOrEmpty (u : UrlPattern) : string :=
  match u with UrlString s => s | _ => "" end.

Definition buildActionUrl (st : State) (resourceName actionName : string)
    (action : Action) (resource : Resource) (resources : list Resource)
    : BuiltUrl :=
  let prefix := apiPrefixFor st resource in
  match url action with
  | UrlRegExp source =>
      RegexPrefixed
        (buildUrl (http st) [orEmpty (cfg_urlPrefix (config st)); prefix])
        source
  | _ =>
      match urlStrategy (config st) with
      | Some strategy =>
          let u := strategy resourceName actionName action resources in
          let prefix := if hasPrefix st u then "" else prefix in
          Plain (buildUrl (http st) [prefix; u])
      | None =>
          Plain (buildUrl (http st)
                   [prefix; orEmpty (urlPrefix resource);
                    resourcePrefix resourceName (url action);
                    urlOrEmpty (url action)])
      end
  end.

Definition buildActionAlias (resourceName actionName : string) : string :=
  resourceName ++ "." ++ actionName.

(** ** Authorization gate *)

Definition getUserString (user : User) : JsValue :=
  if truthy (user_name user) then user_name user
  else if truthy (user_username user) then user_username user
  else if truthy (user_id user) then user_id user
  else VStr (user_json user).

(** [state.auth.checkPermission( user, action, context )]; reading
    [checkPermission] off an absent provider is a TypeError. *)
Definition callProvider (st : State) (user : User) (action : string)
    (context : JsValue) : M Settlement :=
  match auth st with
  | None => throw (typeError "Cannot read property 'checkPermission'")
  | Some provider =>
      emit (ProviderCalled user action context) ;;
      match provider user action context with
      | ReturnsPromise p => ret p
      | ThrowsSync e => throw e
      end
  end.

Definition checkPermissionFor (st : State) (user : User) (context : JsValue)
    (action : string) : M Settlement :=
  emit (LogDebug "Checking %s's permissions for %s"
          [getUserString user; VStr action]) ;;
  emit (CounterRecord authorizationAttempts 1 "HTTP_AUTHORIZATION_ATTEMPTS") ;;
  emit (TimerCreated AuthorizationTimer) ;;
  let timer := AuthorizationTimer in
  let onError (err : JsValue) : M JsValue :=
    stack <- readStack err ;;
    emit (LogError "Error during check permissions: %s" [stack]) ;;
    emit (CounterRecord authorizationErrors 1 "HTTP_AUTHORIZATION_ERRORS") ;;
    emit (TimerRecorded timer "HTTP_AUTHORIZATION_DURATION") ;;
    ret (VBool false) in
  let onPermission (granted : JsValue) : M JsValue :=
    emit (TimerRecorded timer "HTTP_AUTHORIZATION_DURATION") ;;
    ret granted in
  p <- callProvider st user action context ;;
  then_ p onPermission (Some onError).

(** ** Action metadata *)

Record Envelope : Type := { env_metricKey : list string }.

Record ActionMeta : Type := {
  alias : string;
  authAttempted : M unit;
  authGranted : M unit;
  authRejected : M unit;
  getEnvelope : Request -> M Envelope;
  getPermissionCheck : Request -> option BoundCheck;
  getTimer : M Timer;
  handleErrors : JsValue;
  metricKey : list string;
  resourceKey : list string;
  meta_url : BuiltUrl
}.

(** [meta.routes]: actionName -> { method, url }. *)
Definition Routes : Type := list (string * (string * BuiltUrl)).

Fixpoint setRoute (k : string) (v : string * BuiltUrl) (r : Routes) : Routes :=
  match r with
  | [] => [(k, v)]
  | (k', v') :: rest =>
      if String.eqb k k' then (k, v) :: rest else (k', v') :: setRoute k v rest
  end.

Definition getActionMetadata (st : State) (resource : Resource)
    (actionName : string) (action : Action) (routes : Routes)
    (resources : list Resource) : ActionMeta * Routes :=
  let u := buildActionUrl st (name resource) actionName action resource resources in
  let alias := buildActionAlias (name resource) actionName in
  let resourceKey := [name resource ++ "-" ++ actionName; "http"] in
  let metricKey := ([metrics_prefix st] ++ resourceKey)%list in
  ({| alias := alias;
      authAttempted :=
        emit (CounterRecord authorizationAttempts 1 "HTTP_AUTHORIZATION_ATTEMPTS");
      authGranted :=
        emit (CounterRecord authorizationGrants 1 "HTTP_AUTHORIZATION_GRANTED");
      authRejected :=
        emit (CounterRecord authorizationRejections 1 "HTTP_AUTHORIZATION_REJECTED");
      getEnvelope := fun _ =>
        emit (EnvelopeCreated metricKey) ;; ret {| env_metricKey := metricKey |};
      getPermissionCheck := fun req =>
        match auth st with
        | Some _ => Some {| bound_user := req_user req;
                            bound_context := req_context req |}
        | None => None
        end;
      getTimer :=
        let t := RouteTimer (resourceKey ++ ["duration"])%list in
        emit (TimerCreated t) ;; ret t;
      handleErrors := handleRouteErrors (config st);
      metricKey := metricKey;
      resourceKey := resourceKey;
      meta_url := u |},
   setRoute actionName (method action, u) routes).

(** Calling the closure [getPermissionCheck] returned, with an alias. *)
Definition callBoundCheck (st : State) (c : BoundCheck) (action : string)
    : M Settlement :=
  checkPermissionFor st (bound_user c) (bound_context c) action.

(** ** Dispatcher *)

Definition upper (c : ascii) : ascii :=
  let n := nat_of_ascii c in
  if ((97 <=? n) && (n <=? 122))%nat then ascii_of_nat (n - 32) else c.

Fixpoint toUpperCase (s : string) : string :=
  match s with
  | EmptyString => EmptyString
  | String c rest => String (upper c) (toUpperCase rest)
  end.

Definition showUrl (u : UrlPattern) : JsValue :=
  match u with
  | UrlRegExp source => VStr ("/" ++ source ++ "/")
  | UrlString s => VStr s
  | UrlUndefined => VUndefined
  end.

Definition invoke (action : Action) (req : Request) : M JsValue :=
  emit HandlerInvoked ;;
  fun w => (handle action req, w).

Definition handleReturn (x : JsValue) : M unit := emit (HandleReturn x).

Definition respond (st : State) (meta : ActionMeta) (req : Request)
    (resource : Resource) (action : Action) : M unit :=
  envelope <- getEnvelope meta req ;;
  result <-
    (if truthy (handleErrors meta) then
       tryCatch (invoke action req)
         (fun err =>
            stack <- readStack err ;;
            emit (LogError "API EXCEPTION! route: %s %s failed with %s"
                    [VStr (toUpperCase (method action)); showUrl (url action);
                     stack]) ;;
            ret err)
     else invoke action req) ;;
  if truthy result then
    match getThen result with
    | ThenMethod p =>
        let onResult (x : JsValue) : M JsValue :=
          handleReturn x ;; ret VUndefined in
        then_ p onResult (Some onResult) ;; ret tt
    | ThenOther t =>
        if truthy t then throw (typeError "result.then is not a function")
        else handleReturn result
    end
  else ret tt.

(** *** The response *)

Definition resOnceFinish (l : Listener) : M unit :=
  fun w => (Normal tt, withFinishOnce w (finishOnce w ++ [l])).

Definition fire (l : Listener) : Event :=
  match l with RecordTimer t name => TimerRecorded t name end.

(** The transport emits 'finish': every one-shot listener runs, once,
    and is removed. *)
Definition emitFinish (w : World) : World :=
  withFinishOnce (withTrace w (trace w ++ map fire (finishOnce w))) [].

Fixpoint emitFinishTimes (n : nat) (w : World) : World :=
  match n with
  | O => w
  | S k => emitFinishTimes k (emitFinish w)
  end.

Definition getHeaderSent : M bool := fun w => (Normal (headerSent w), w).

(** [res.status( code ).send( body )] *)
Definition statusSend (code : Z) (body : string) : M unit :=
  emit (ResStatus code) ;;
  emit (ResSend body) ;;
  fun w => (Normal tt, withHeaderSent w true).

Definition attach (metricKey : list string) (resource action : string)
    (check : option BoundCheck) : M unit :=
  fun w => (Normal tt,
            match w with
            | Build_World t sent listeners _ _ _ _ =>
                Build_World t sent listeners
                  (Some metricKey) (Some resource) (Some action) check
            end).

Definition showBuilt (u : BuiltUrl) : JsValue :=
  match u with
  | RegexPrefixed p source => VStr ("/" ++ p ++ source ++ "/")
  | Plain s => VStr s
  end.

(** The callback [wireupAction] registers with [state.http.route]. *)
Definition onRequest (st : State) (meta : ActionMeta) (resource : Resource)
    (actionName : string) (action : Action) (req : Request) : M unit :=
  attach (metricKey meta) (name resource) actionName
    (getPermissionCheck meta req) ;;
  timer <- getTimer meta ;;
  resOnceFinish (RecordTimer timer "HTTP_API_DURATION") ;;
  match auth st with
  | Some _ =>
      authAttempted meta ;;
      p <- checkPermissionFor st (req_user req) (req_context req) (alias meta) ;;
      let onPermission (pass : JsValue) : M JsValue :=
        (if truthy pass then
           authGranted meta ;;
           emit (LogDebug "HTTP activation of action %s (%s %s) for %j granted"
                   [VStr (alias meta); VStr (method action);
                    showBuilt (meta_url meta); getUserString (req_user req)]) ;;
           respond st meta req resource action
         else
           authRejected meta ;;
           emit (LogDebug "User %s was denied HTTP activation of action %s (%s %s)"
                   [getUserString (req_user req); VStr (alias meta);
                    VStr (method action); showBuilt (meta_url meta)]) ;;
           sent <- getHeaderSent ;;
           if negb sent then statusSend 403 "User lacks sufficient permissions"
           else ret tt) ;;
        ret VUndefined in
      then_ p onPermission None ;;
      ret tt
  | None => respond st meta req resource action
  end.

Record Route : Type := {
  route_url : BuiltUrl;
  route_method : string;
  route_callback : Request -> M unit
}.

(** [wireupAction]: the route it registers and the updated [routes]
    (the wiring-time debug log is not part of any request's trace). *)
Definition wireupAction (st : State) (resource : Resource)
    (actionName : string) (action : Action) (routes : Routes)
    (resources : list Resource) : Route * Routes :=
  let (meta, routes') :=
    getActionMetadata st resource actionName action routes resources in
  ({| route_url := meta_url meta;
      route_method := method action;
      route_callback := onRequest st meta resource actionName action |},
   routes').

(** A request served by the route wired for an action, from a response
    whose [_headerSent] is [sent]. *)
Definition serve (st : State) (resource : Resource) (actionName : string)
    (action : Action) (req : Request) (sent : bool) : Completion unit * World :=
  route_callback (fst (wireupAction st resource actionName action [] []))
    req (newWorld sent).

(** ** The URL join of the transport *)

Definition stripLeadingSlash (s : string) : string :=
  match s with
  | String c rest => if Ascii.eqb c "/" then rest else s
  | EmptyString => s
  end.

Fixpoint stripTrailingSlash (s : string) : string :=
  match s with
  | EmptyString => EmptyString
  | String c EmptyString => if Ascii.eqb c "/" then EmptyString else s
  | String c rest => String c (stripTrailingSlash rest)
  end.

(** Modelled from the spec: [state.http.buildUrl], the URL-join utility
    of the transport (src/http/http.js, not among the sources).  The spec
    gives the convention by its examples: segments are joined with one
    slash, empty segments are skipped, the result is rooted at a slash
    ("api", "", "widgets", "" gives "/api/widgets"; "api", "", "",
    "/widgets/:id" gives "/api/widgets/:id"). *)
Definition joinUrl (segments : list string) : string :=
  let cleaned :=
    filter (fun s => negb (String.eqb s ""))
      (map (fun s => stripTrailingSlash (stripLeadingSlash s)) segments) in
  match cleaned with
  | [] => ""
  | _ => "/" ++ String.concat "/" cleaned
  end.

Definition joinHttp : Http := {| buildUrl := joinUrl |}.

(** ** Fixtures *)

Module Fixture.

Definition defaultConfig : Config :=
  {| cfg_apiPrefix := None; cfg_urlPrefix := None; urlStrategy := None;
     handleRouteErrors := VUndefined |}.

Definition absorbConfig : Config :=
  {| cfg_apiPrefix := None; cfg_urlPrefix := None; urlStrategy := None;
     handleRouteErrors := VBool true |}.

Definition anonymous : User :=
  {| user_name := VStr "anonymous"; user_username := VUndefined;
     user_id := VStr "anonymous"; user_json := "{}" |}.

Definition request : Request :=
  {| req_user := anonymous; req_context := VObject [] |}.

Definition boom : JsValue := VError "boom" "Error: boom".

Definition provider (c : ProviderCall) : Provider := fun _ _ _ => c.

Definition stateWith (cfg : Config) (a : option Provider) : State :=
  {| auth := a; config := cfg; http := joinHttp; metrics_prefix := "autohost" |}.

Definition returning (v : JsValue) : Request -> Completion JsValue :=
  fun _ => Normal v.

Definition throwing (e : JsValue) : Request -> Completion JsValue :=
  fun _ => Thrown e.

Definition get (u : UrlPattern) (h : Request -> Completion JsValue) : Action :=
  {| method := "get"; url := u; handle := h |}.

Definition widgets : Resource :=
  {| name := "widgets"; apiPrefix := None; urlPrefix := None; actions := [] |}.

(** A state whose provider answers every check with [c]. *)
Definition guarded (cfg : Config) (c : ProviderCall) : State :=
  stateWith cfg (Some (provider c)).

Definition byId (h : Request -> Completion JsValue) : Action :=
  get (UrlString "/:id") h.

End Fixture.

(** ** The default heuristic, in the words of the specification *)

(** [u.split( '/' )] *)
Fixpoint splitSlash (u : string) : list string :=
  match u with
  | EmptyString => [EmptyString]
  | String c rest =>
      if Ascii.eqb c "/" then EmptyString :: splitSlash rest
      else match splitSlash rest with
           | [] => [String c EmptyString]
           | seg :: segs => String c seg :: segs
           end
  end.

Definition segmentBeginsWith (resourceName : string) (seg : option string) : bool :=
  match seg with
  | Some s => String.prefix resourceName s
  | None => false
  end.

(** "action.url already begins with resourceName at its first or second
    path segment", path segments being the pieces between slashes. *)
Definition beginsAtFirstOrSecondSegment (resourceName u : string) : bool :=
  segmentBeginsWith resourceName (nth_error (splitSlash u) 0)
  || segmentBeginsWith resourceName (nth_error (splitSlash u) 1).

(** What the code tests: the first occurrence of resourceName in a
    non-empty action.url is at character 0 or at character 1. *)
Definition occursAtCharZeroOrOne (resourceName : string) (u : UrlPattern) : bool :=
  match u with
  | UrlString (String c rest) =>
      String.prefix resourceName (String c rest) || String.prefix resourceName rest
  | _ => false
  end.


(** ** Vocabulary of the dispatcher properties *)

(** What [respond] can add to a trace after it has invoked the handler. *)
Definition respondTail (e : Event) : bool :=
  match e with
  | LogError _ _ | AsyncHop | HandleReturn _ => true
  | _ => false
  end.

Definition apiDuration : Event -> bool := isTimerRecorded "HTTP_API_DURATION".

Definition authDuration : Event -> bool :=
  isTimerRecorded "HTTP_AUTHORIZATION_DURATION".

Definition routeTimer (resource : Resource) (actionName : string) : Timer :=
  RouteTimer [name resource ++ "-" ++ actionName; "http"; "duration"].

(** The denial response. *)
Definition denial : list Event :=
  [ResStatus 403; ResSend "User lacks sufficient permissions"].

(** A world with the error log and the authorization-error counter
    taken out of its trace. *)
Definition withoutGateError (w : World) : World :=
  withTrace w
    (filter (fun e => negb (isLogError e || isCounter authorizationErrors e))
       (trace w)).

Definition metaOf (st : State) (resource : Resource) (actionName : string)
    (action : Action) (routes : Routes) (resources : list Resource)
    : ActionMeta :=
  fst (getActionMetadata st resource actionName action routes resources).

(** The outcome of a dispatch from [w]: the completion [c], the envelope
    created, the handler invoked, then [evs]. *)
Definition dispatched (meta : ActionMeta) (w : World) (c : Completion unit)
    (evs : list Event) : Completion unit * World :=
  (c, withTrace w (trace w ++ EnvelopeCreated (metricKey meta)
                            :: HandlerInvoked :: evs)).

(** The same action with a handler that returns nothing. *)
Definition returningNothing (action : Action) : Action :=
  {| method := method action; url := url action;
     handle := fun _ => Normal VUndefined |}.

(** ** Static assets and resource wiring *)

(** The text [s.replace( /^~/, r )] puts in place of the tilde: in [r],
    [$$] is a dollar, [$&] the match, [$`] what precedes it (nothing,
    the match being at the start) and [$'] what follows it; the pattern
    has no group, so any other dollar stays as it is. *)
Fixpoint substitution (matched following r : string) : string :=
  match r with
  | EmptyString => EmptyString
  | String a tail =>
      if Ascii.eqb a "$" then
        match tail with
        | String c rest =>
            if Ascii.eqb c "$" then String "$" (substitution matched following rest)
            else if Ascii.eqb c "&" then matched ++ substitution matched following rest
            else if Ascii.eqb c "`" then substitution matched following rest
            else if Ascii.eqb c "'" then following ++ substitution matched following rest
            else String "$" (substitution matched following tail)
        | EmptyString => String "$" EmptyString
        end
      else String a (substitution matched following tail)
  end.

(** [process.env.HOME] as a replacement: an unset variable reads
    [undefined], which [replace] turns into text. *)
Definition homeText (home : option string) : string :=
  match home with Some h => h | None => "undefined" end.

(** [s.replace( /^~/, process.env.HOME )] *)
Definition replaceTilde (home : option string) (s : string) : string :=
  match s with
  | String c rest =>
      if Ascii.eqb c "~" then substitution "~" rest (homeText home) ++ rest
      else s
  | EmptyString => s
  end.

(** What [buildPath] reads from the process: the HOME variable and
    Node's [path.join]. *)
Record Env : Type := {
  env_HOME : option string;
  path_join : list string -> string
}.

Inductive PathSpec : Type :=
| PathUndefined
| PathString (s : string)
| PathArray (parts : list string).

Definition buildPath (env : Env) (pathSpec : PathSpec) : Completion string :=
  match pathSpec with
  | PathUndefined => Normal (replaceTilde (env_HOME env) "")
  | PathString s => Normal (replaceTilde (env_HOME env) s)
  | PathArray [] =>
      Thrown (typeError "Cannot read property 'match' of undefined")
  | PathArray (first :: rest) =>
      let hasLocalPrefix := String.prefix "./" first in
      let joined := replaceTilde (env_HOME env) (path_join env (first :: rest)) in
      Normal (if hasLocalPrefix then "./" ++ joined else joined)
  end.

(** [resource.static] / [resource.resources]: a path, or an options
    object with a [path]. *)
Record StaticOptions : Type := {
  static_path : string;
  static_rest : list (string * JsValue)
}.

Inductive StaticDecl : Type :=
| DeclPath (p : string)
| DeclOptions (o : StaticOptions).

Record Assets : Type := {
  asset_static : option StaticDecl;
  asset_resources : option StaticDecl
}.

Definition declTruthy (d : option StaticDecl) : bool :=
  match d with
  | Some (DeclPath p) => negb (String.eqb p "")
  | Some (DeclOptions _) => true
  | None => false
  end.

(** [resource.static || resource.resources] *)
Definition declared (a : Assets) : option StaticDecl :=
  if declTruthy (asset_static a) then asset_static a else asset_resources a.

(** The object [wireupResource] returns. *)
Record ResourceMeta : Type := {
  rm_routes : Routes;
  rm_path : option (string * string)  (* url, directory *)
}.

(** What wiring a resource does: the metadata returned, the routes and
    the static mount registered with the transport, and the resource's
    asset declarations afterwards (an options object is written to). *)
Record Wiring : Type := {
  wired_meta : ResourceMeta;
  wired_routes : list Route;
  wired_static : option (string * StaticOptions);
  wired_assets : Assets
}.

(** [_.each( resource.actions, ... wireupAction ... )] *)
Fixpoint wireupActions (st : State) (resource : Resource)
    (acts : list (string * Action)) (routes : Routes)
    (resources : list Resource) : list Route * Routes :=
  match acts with
  | [] => ([], routes)
  | (actionName, action) :: rest =>
      let (r, routes') :=
        wireupAction st resource actionName action routes resources in
      let (rs, routes'') := wireupActions st resource rest routes' resources in
      (r :: rs, routes'')
  end.

Definition wireupResource (env : Env) (st : State) (resource : Resource)
    (assets : Assets) (basePath : string) (resources : list Resource)
    : Completion Wiring :=
  let wire (mount : option (string * StaticOptions)) (assets' : Assets) :=
    let (registered, routes) :=
      wireupActions st resource (actions resource) [] resources in
    Normal {| wired_meta :=
                {| rm_routes := routes;
                   rm_path :=
                     match mount with
                     | Some (u, o) => Some (u, static_path o)
                     | None => None
                     end |};
              wired_routes := registered;
              wired_static := mount;
              wired_assets := assets' |} in
  let fromStatic := declTruthy (asset_static assets) in
  if declTruthy (declared assets) then
    match declared assets with
    | Some (DeclPath p) =>
        match buildPath env (PathArray [basePath; p]) with
        | Normal dir =>
            wire (Some ("/" ++ name resource,
                        {| static_path := dir; static_rest := [] |})) assets
        | Thrown e => Thrown e
        end
    | Some (DeclOptions o) =>
        match buildPath env (PathArray [basePath; static_path o]) with
        | Normal dir =>
            let o' := {| static_path := dir; static_rest := static_rest o |} in
            wire (Some ("/" ++ name resource, o'))
              (if fromStatic
               then {| asset_static := Some (DeclOptions o');
                       asset_resources := asset_resources assets |}
               else {| asset_static := asset_static assets;
                       asset_resources := Some (DeclOptions o') |})
        | Thrown e => Thrown e
        end
    | None => wire None assets
    end
  else wire None assets.

Fixpoint getRoute (k : string) (r : Routes) : option (string * BuiltUrl) :=
  match r with
  | [] => None
  | (k', v) :: rest => if String.eqb k k' then Some v else getRoute k rest
  end.

(** The entry of [meta.routes] an action is described by. *)
Definition describe (st : State) (resource : Resource)
    (resources : list Resource) (entry : string * Action)
    : string * (string * BuiltUrl) :=
  (fst entry,
   (method (snd entry),
    buildActionUrl st (name resource) (fst entry) (snd entry) resource resources)).

(** A registered route belongs to an action: it has the action's built
    url and method, and its callback is the dispatcher for that action
    with the metadata built at wiring time. *)
Definition wiredFor (st : State) (resource : Resource)
    (resources : list Resource) (entry : string * Action) (r : Route) : Prop :=
  route_url r = snd (snd (describe st resource resources entry))
  /\ route_method r = method (snd entry)
  /\ route_callback r =
       onRequest st (metaOf st resource (fst entry) (snd entry) [] resources)
         resource (fst entry) (snd entry).

(** ** Vocabulary of the authorization outcomes *)

(** The check settled in favour of the request. *)
Definition grants (c : ProviderCall) : bool :=
  match c with
  | ReturnsPromise (Fulfilled v) => truthy v
  | _ => false
  end.

Definition readable (e : JsValue) : bool :=
  match getStack e with Read _ => true | ReadTypeError => false end.

(** The check settled against the request: a falsy decision, or a
    rejection whose reason has a readable stack. *)
Definition refuses (c : ProviderCall) : bool :=
  match c with
  | ReturnsPromise (Fulfilled v) => negb (truthy v)
  | ReturnsPromise (Rejected e) => readable e
  | _ => false
  end.

(** The check failed in a way the gate accounts for. *)
Definition faults (c : ProviderCall) : bool :=
  match c with
  | ReturnsPromise (Rejected e) => readable e
  | _ => false
  end.

Definition isProviderCalled (e : Event) : bool :=
  match e with ProviderCalled _ _ _ => true | _ => false end.

Definition isEnvelopeCreated (e : Event) : bool :=
  match e with EnvelopeCreated _ => true | _ => false end.

Definition isTimerEvent (e : Event) : bool :=
  match e with TimerCreated _ | TimerRecorded _ _ => true | _ => false end.

(** No [q] occurs in the trace before the first [p]. *)
Fixpoint precedes (p q : Event -> bool) (l : list Event) : bool :=
  match l with
  | [] => true
  | e :: rest => if p e then true else if q e then false else precedes p q rest
  end.

Definition bit (b : bool) : nat := if b then 1%nat else 0%nat.

Fixpoint hasDot (s : string) : bool :=
  match s with
  | EmptyString => false
  | String c rest => Ascii.eqb c "." || hasDot rest
  end.

Fixpoint hasDollar (s : string) : bool :=
  match s with
  | EmptyString => false
  | String c rest => Ascii.eqb c "$" || hasDollar rest
  end.

(** ** Bootstrap (src/index.js) *)

Module Index.

(** The configuration as [index.js] reads it: what the adapter reads,
    and [noOptions] and [resources]. *)
Record BootConfig : Type := {
  adapterConfig : Config;
  noOptions : JsValue;
  resourcesPath : option string
}.

(** The metadata [api.start] resolves to; [setup] writes its [prefix]. *)
Record Meta : Type := {
  described : list (string * Routes);
  prefix : option string
}.

(** The [authProvider] argument: a provider (or nothing), or a promise
    of one. *)
Inductive AuthSettlement : Type :=
| AuthFulfilled (a : option Provider)
| AuthRejected (e : JsValue)
| AuthPending.

Inductive AuthArg : Type :=
| AuthPlain (a : option Provider)
| AuthPromise (s : AuthSettlement).

(** How the promise of [api.start] settles. *)
Inductive StartResult : Type :=
| Started (m : Meta)
| StartFailed (e : JsValue)
| Starting.

Inductive AdapterKind : Type := HttpAdapter | SocketAdapter.

(** The calls on the modules [index.js] requires, in order. *)
Inductive BootCall : Type :=
| ApiFn (cfg : BootConfig)
| StartAdapters
| MiddlewareLib (cfg : BootConfig)
| PassportFn (cfg : BootConfig) (a : Provider)
| HttpFn (cfg : BootConfig) (passport : option Provider)
| HttpAdapterFn (cfg : BootConfig) (a : option Provider)
| SocketFn (cfg : BootConfig)
| SocketAdapterFn (cfg : BootConfig) (a : option Provider)
| AddAdapter (k : AdapterKind)
| MountOptions (path : string)
| ApiStart (path : string) (a : option Provider).

(** The module's variables and the fields of [wrapper] it writes.
    [passport] is the provider the current passport was built for. *)
Record Wrapper : Type := {
  initialized : bool;
  w_config : option BootConfig;
  w_auth : option Provider;
  w_meta : option Meta;
  w_fount : option string;
  passport : option Provider;
  calls : list BootCall
}.

Definition fresh : Wrapper :=
  {| initialized := false; w_config := None; w_auth := None; w_meta := None;
     w_fount := None; passport := None; calls := [] |}.

(** How the promise [initialize] returns settles. *)
Inductive InitResult : Type :=
| Ready
| Failed (e : JsValue)
| Waiting.

Definition call (c : BootCall) (w : Wrapper) : Wrapper :=
  match w with
  | Build_Wrapper i cfg a m f p cs => Build_Wrapper i cfg a m f p (cs ++ [c])
  end.

Fixpoint callAll (cs : list BootCall) (w : Wrapper) : Wrapper :=
  match cs with
  | [] => w
  | c :: rest => callAll rest (call c w)
  end.

Definition nonEmpty (s : option string) : option string :=
  match s with
  | Some p => if String.eqb p "" then None else Some p
  | None => None
  end.

(** [config.apiPrefix || '/api'] *)
Definition advertisedPrefix (cfg : BootConfig) : string :=
  match nonEmpty (cfg_apiPrefix (adapterConfig cfg)) with
  | Some p => p
  | None => "/api"
  end.

(** [config.resources || path.join( process.cwd(), './resource' )] *)
Definition resourceDir (cwdResource : string) (cfg : BootConfig) : string :=
  match nonEmpty (resourcesPath cfg) with
  | Some p => p
  | None => cwdResource
  end.

Definition setup (cwdResource : string) (authProvider : option Provider)
    (start : StartResult) (w : Wrapper) : InitResult * Wrapper :=
  match w_config w with
  | None => (Failed (typeError "Cannot read property 'noOptions'"), w)
  | Some config =>
      let w1 :=
        match authProvider with
        | Some a =>
            match call (PassportFn config a) w with
            | Build_Wrapper i cfg au m f _ cs =>
                Build_Wrapper i cfg au m f (Some a) cs
            end
        | None => w
        end in
      let w2 :=
        callAll [HttpFn config (passport w1);
                 HttpAdapterFn config authProvider;
                 AddAdapter HttpAdapter] w1 in
      let w3 :=
        if truthy (noOptions config) then w2 else call (MountOptions "/api") w2 in
      let w4 :=
        callAll [SocketFn config;
                 SocketAdapterFn config authProvider;
                 AddAdapter SocketAdapter;
                 ApiStart (resourceDir cwdResource config) authProvider] w3 in
      match start with
      | Started m =>
          (Ready,
           match w4 with
           | Build_Wrapper _ cfg au _ f p cs =>
               Build_Wrapper true cfg au
                 (Some {| described := described m;
                          prefix := Some (advertisedPrefix config) |})
                 f p cs
           end)
      | StartFailed e => (Failed e, w4)
      | Starting => (Waiting, w4)
      end
  end.

Definition initialize (cwdResource : string) (cfg : BootConfig)
    (authProvider : AuthArg) (fount : option string) (start : StartResult)
    (w : Wrapper) : InitResult * Wrapper :=
  let w1 :=
    match call (ApiFn cfg) w with
    | Build_Wrapper i c au m _ p cs => Build_Wrapper i c au m fount p cs
    end in
  if initialized w1 then (Ready, call StartAdapters w1)
  else
    let w2 :=
      match w1 with
      | Build_Wrapper i _ au m f p cs => Build_Wrapper i (Some cfg) au m f p cs
      end in
    let w3 := call (MiddlewareLib cfg) w2 in
    let proceed (result : option Provider) :=
      setup cwdResource result start
        match w3 with
        | Build_Wrapper i c _ m f p cs => Build_Wrapper i c result m f p cs
        end in
    match authProvider with
    | AuthPlain a => proceed a
    | AuthPromise (AuthFulfilled a) => proceed a
    | AuthPromise (AuthRejected e) => (Failed e, w3)
    | AuthPromise AuthPending => (Waiting, w3)
    end.

(** The middleware mounted at '/api'. *)
Inductive Handled : Type :=
| Replied (status : Z) (body : option Meta)
| CalledNext.

Definition optionsMiddleware (w : Wrapper) (requestMethod : string) : Handled :=
  if String.eqb requestMethod "OPTIONS" || String.eqb requestMethod "options"
  then Replied 200 (w_meta w)
  else CalledNext.

Definition isHttpFn (c : BootCall) : bool :=
  match c with HttpFn _ _ => true | _ => false end.

Definition isApiStart (c : BootCall) : bool :=
  match c with ApiStart _ _ => true | _ => false end.

(** The provider [initialize] goes on with, when it does: the argument
    itself, or what its promise fulfils with. *)
Definition resolves (a : AuthArg) : option (option Provider) :=
  match a with
  | AuthPlain p => Some p
  | AuthPromise (AuthFulfilled p) => Some p
  | _ => None
  end.

Definition started (s : StartResult) : bool :=
  match s with Started _ => true | _ => false end.

(** The calls made between two states of the module. *)
Definition since (w w' : Wrapper) : list BootCall :=
  skipn (length (calls w)) (calls w').

Definition isPassportFn (c : BootCall) : bool :=
  match c with PassportFn _ _ => true | _ => false end.

Definition isMountOptions (c : BootCall) : bool :=
  match c with MountOptions _ => true | _ => false end.

Definition isAdapterFn (c : BootCall) : bool :=
  match c with HttpAdapterFn _ _ | SocketAdapterFn _ _ => true | _ => false end.

End Index.

(** ** More fixtures *)

Module Sample.
Import Fixture.

(** A resource with two actions, its assets, and a process. *)
Definition catalog : Resource :=
  {| name := "catalog"; apiPrefix := None; urlPrefix := None;
     actions := [("list", get (UrlString "") (returning (VStr "all")));
                 ("get", byId (returning (VStr "one")))] |}.

Definition unix : Env :=
  {| env_HOME := Some "/home/app";
     path_join := fun parts => String.concat "/" parts |}.

Definition publicOptions : StaticOptions :=
  {| static_path := "public"; static_rest := [("maxAge", VNum 60)] |}.

Definition boot : Index.BootConfig :=
  {| Index.adapterConfig := defaultConfig; Index.noOptions := VUndefined;
     Index.resourcesPath := None |}.

Definition described : Index.Meta :=
  {| Index.described := []; Index.prefix := None |}.

Definition allow : Provider := provider (ReturnsPromise (Fulfilled (VBool true))).

(** The module after a first initialization that went through. *)
Definition running : Index.Wrapper :=
  snd (Index.initialize "/app/resource" boot (Index.AuthPlain (Some allow)) None
         (Index.Started described) Index.fresh).


End Sample.

(** ** Properties of the route builder *)

Lemma indexOfFrom_range needle hay i :
  indexOfFrom needle hay i = -1 \/ i <= indexOfFrom needle hay i.
Proof.
  revert i. induction hay as [|c rest IH]; intro i; cbn [indexOfFrom].
  - destruct (String.prefix needle ""); [right; lia | left; reflexivity].
  - destruct (String.prefix needle (String c rest)).
    + right; lia.
    + destruct (IH (i + 1)) as [H | H]; [left; exact H | right; lia].
Qed.

Lemma indexOf_zero_prefix hay needle :
  (indexOf hay needle =? 0) = String.prefix needle hay.
Proof.
  unfold indexOf. destruct hay as [|c rest]; cbn [indexOfFrom].
  - destruct (String.prefix needle ""); reflexivity.
  - destruct (String.prefix needle (String c rest)); [reflexivity|].
    destruct (indexOfFrom_range needle rest (0 + 1)) as [H | H].
    + rewrite H. reflexivity.
    + apply Z.eqb_neq. lia.
Qed.

Lemma indexOf_one_prefix c rest needle :
  String.prefix needle (String c rest) = false ->
  (indexOf (String c rest) needle =? 1) = String.prefix needle rest.
Proof.
  intro Hp. unfold indexOf. cbn [indexOfFrom]. rewrite Hp.
  destruct rest as [|d rest']; cbn [indexOfFrom].
  - destruct (String.prefix needle ""); reflexivity.
  - destruct (String.prefix needle (String d rest')); [reflexivity|].
    destruct (indexOfFrom_range needle rest' (0 + 1 + 1)) as [H | H].
    + rewrite H. reflexivity.
    + apply Z.eqb_neq. lia.
Qed.

Lemma resourcePrefix_char resourceName u :
  resourcePrefix resourceName u =
  if occursAtCharZeroOrOne resourceName u then "" else resourceName.
Proof.
  unfold resourcePrefix, resourceIndex, occursAtCharZeroOrOne.
  destruct u as [source | s |]; try reflexivity.
  destruct s as [|c rest]; [reflexivity|].
  change (String.eqb (String c rest) "") with false. cbv iota.
  rewrite indexOf_zero_prefix.
  destruct (String.prefix resourceName (String c rest)) eqn:Hp; [reflexivity|].
  rewrite (indexOf_one_prefix _ _ _ Hp). reflexivity.
Qed.

(** C7, the claim as worded: with the path segments read as the pieces
    between slashes, the heuristic is not the one of the claim.  Action
    url "a/widgets" has "widgets" as its second path segment, and the
    segment is added all the same (and so duplicated); action url
    ":widgets/x" has no segment that begins with "widgets", and the
    segment is omitted. *)
Lemma C7_segments_counterexample :
  (beginsAtFirstOrSecondSegment "widgets" "a/widgets" = true /\
   nth_error (splitSlash "a/widgets") 1 = Some "widgets" /\
   resourcePrefix "widgets" (UrlString "a/widgets") = "widgets" /\
   buildActionUrl (Fixture.stateWith Fixture.defaultConfig None) "widgets" "get"
     (Fixture.get (UrlString "a/widgets") (Fixture.returning VUndefined))
     Fixture.widgets [] = Plain "/api/widgets/a/widgets")
  /\
  (beginsAtFirstOrSecondSegment "widgets" ":widgets/x" = false /\
   splitSlash ":widgets/x" = [":widgets"; "x"] /\
   resourcePrefix "widgets" (UrlString ":widgets/x") = "" /\
   buildActionUrl (Fixture.stateWith Fixture.defaultConfig None) "widgets" "get"
     (Fixture.get (UrlString ":widgets/x") (Fixture.returning VUndefined))
     Fixture.widgets [] = Plain "/api/:widgets/x").
Proof. repeat split; reflexivity. Qed.

(** C7, amended: under the default heuristic (no RegExp url, no url
    strategy) the url is the join of the api prefix, the resource's
    urlPrefix, the resource name and action.url, where the resource name
    is left out exactly when its first occurrence in a non-empty
    action.url is at character 0 or 1; resource "widgets" with action url
    "/widgets/:id" and the default configuration gives
    "/api/widgets/:id". *)
Theorem C7_default_heuristic st resourceName actionName action resource resources :
  isRegExp (url action) = false ->
  urlStrategy (config st) = None ->
  buildActionUrl st resourceName actionName action resource resources =
    Plain (buildUrl (http st)
             [apiPrefixFor st resource; orEmpty (urlPrefix resource);
              if occursAtCharZeroOrOne resourceName (url action)
              then "" else resourceName;
              urlOrEmpty (url action)])
  /\ buildActionUrl (Fixture.stateWith Fixture.defaultConfig None) "widgets" "get"
       (Fixture.get (UrlString "/widgets/:id") (handle action))
       Fixture.widgets resources = Plain "/api/widgets/:id".
Proof.
  intros Hre Hstrat. split; [|reflexivity].
  unfold buildActionUrl. rewrite Hstrat, resourcePrefix_char.
  destruct (url action); [discriminate Hre | reflexivity | reflexivity].
Qed.

Lemma C7_default_heuristic_witness :
  buildActionUrl (Fixture.stateWith Fixture.defaultConfig None) "widgets" "list"
    (Fixture.get (UrlString "") (Fixture.returning VUndefined))
    Fixture.widgets [] = Plain "/api/widgets"
  /\ buildActionUrl (Fixture.stateWith Fixture.defaultConfig None) "widgets" "get"
       (Fixture.get (UrlString "/widgets/:id") (Fixture.returning VUndefined))
       Fixture.widgets [] = Plain "/api/widgets/:id".
Proof.
  exact (C7_default_heuristic (Fixture.stateWith Fixture.defaultConfig None)
           "widgets" "list"
           (Fixture.get (UrlString "") (Fixture.returning VUndefined))
           Fixture.widgets [] eq_refl eq_refl).
Defined.

(** The branch before the strategy's: for an action whose url is a
    RegExp the route is the prefixed pattern, whatever strategy is
    configured. *)
Example regexp_url_takes_first_branch :
  let cfg strategy :=
    {| cfg_apiPrefix := None; cfg_urlPrefix := None;
       urlStrategy := Some strategy; handleRouteErrors := VUndefined |} in
  let action := Fixture.get (UrlRegExp "^/w") (Fixture.returning VUndefined) in
  buildActionUrl (Fixture.stateWith (cfg (fun _ _ _ _ => "/custom")) None)
    "widgets" "get" action Fixture.widgets [] = RegexPrefixed "/api" "^/w"
  /\ buildActionUrl (Fixture.stateWith (cfg (fun _ _ _ _ => "/other")) None)
    "widgets" "get" action Fixture.widgets [] = RegexPrefixed "/api" "^/w"
  /\ RegexPrefixed "/api" "^/w" <> Plain (joinUrl ["api"; "/custom"]).
Proof.
  intros cfg action.
  split; [reflexivity | split; [reflexivity | discriminate]].
Qed.



(** ** Properties of the dispatcher *)

Lemma count_app p l1 l2 : count p (l1 ++ l2) = (count p l1 + count p l2)%nat.
Proof. unfold count. rewrite filter_app, length_app. reflexivity. Qed.

Lemma count_cons p e l :
  count p (e :: l) = ((if p e then 1 else 0) + count p l)%nat.
Proof. unfold count. simpl. destruct (p e); reflexivity. Qed.

Lemma count_none p q l :
  (forall e, q e = true -> p e = false) ->
  forallb q l = true -> count p l = 0%nat.
Proof.
  intros Hpq. induction l as [|e l IH]; intro H; [reflexivity|].
  simpl in H. apply andb_prop in H as [He Hl].
  rewrite count_cons, (Hpq e He), (IH Hl). reflexivity.
Qed.

(** Case analysis on the innermost scrutinee of the goal. *)
Ltac step :=
  match goal with
  | |- context [match ?x with _ => _ end] =>
      match x with
      | context [match _ with _ => _ end] => fail 1
      | _ => destruct x eqn:?
      end
  end.

Ltac unfold_respond :=
  unfold respond, invoke, handleReturn, tryCatch, then_, settle, readStack,
    bind, emit, ret, throw.

Ltac unfold_route :=
  unfold serve, wireupAction, onRequest, checkPermissionFor, callProvider,
    getActionMetadata, statusSend, getHeaderSent, attach, resOnceFinish,
    then_, settle, readStack, bind, emit, ret, throw.

(** Counting in a trace that ends with what [respond] left behind. *)
Ltac tail_count :=
  rewrite ?count_cons;
  try match goal with
  | Ht : forallb respondTail ?evs = true |- context [count ?p ?evs] =>
      rewrite (count_none p respondTail evs)
        by (assumption ||
            (let e := fresh in let He := fresh in
             intros e He; destruct e; (discriminate He || reflexivity)))
  end;
  reflexivity.

(** Whatever the handler does, [respond] creates the envelope, invokes
    the handler once, and then only logs an error, hops, or hands a
    value to the envelope; it touches nothing else of the world. *)
Lemma respond_frame st meta req resource action w :
  getEnvelope meta req =
    (emit (EnvelopeCreated (metricKey meta)) ;;
     ret {| env_metricKey := metricKey meta |}) ->
  exists c evs,
    respond st meta req resource action w = dispatched meta w c evs
    /\ forallb respondTail evs = true.
Proof.
  intro Henv. destruct w. unfold dispatched, respond. rewrite Henv.
  unfold_respond. cbn.
  repeat (step; cbn).
  all: eexists; eexists; split;
    [rewrite <- ?app_assoc; cbn; reflexivity | reflexivity].
Qed.

Ltac frame_respond :=
  match goal with
  | |- context [respond ?st ?m ?rq ?rs ?a ?w] =>
      let c := fresh "c" in
      let evs := fresh "evs" in
      let Hr := fresh "Hr" in
      let Ht := fresh "Htail" in
      destruct (respond_frame st m rq rs a w eq_refl) as (c & evs & Hr & Ht);
      rewrite Hr; clear Hr; unfold dispatched
  end.

Lemma emitFinishTimes_idle n w : finishOnce w = [] -> emitFinishTimes n w = w.
Proof.
  intro H. induction n as [|n IH]; [reflexivity|].
  cbn [emitFinishTimes]. destruct w as [t h l a b c d]. cbn in H. subst l.
  unfold emitFinish in *. cbn in *. rewrite app_nil_r in *. exact IH.
Qed.

Section Served.

Variables (st : State) (resource : Resource) (actionName : string)
  (action : Action) (req : Request) (sent : bool).

(** Every request, whatever its branch, leaves exactly one one-shot
    'finish' listener, the route timer's, and has not recorded the
    request duration yet. *)
Lemma serve_frame :
  exists evs sent',
    snd (serve st resource actionName action req sent) =
      {| trace := evs; headerSent := sent';
         finishOnce :=
           [RecordTimer (routeTimer resource actionName) "HTTP_API_DURATION"];
         req_metricKey :=
           Some [metrics_prefix st; name resource ++ "-" ++ actionName; "http"];
         req_resource := Some (name resource);
         req_action := Some actionName;
         req_checkPermission :=
           match auth st with
           | Some _ => Some {| bound_user := req_user req;
                               bound_context := req_context req |}
           | None => None
           end |}
    /\ count apiDuration evs = 0%nat.
Proof.
  unfold_route. cbn -[respond].
  repeat (first [frame_respond | step]; cbn -[respond]).
  all: eexists; eexists; split; [reflexivity | tail_count].
Qed.

(** C1, amended: when the provider's checkPermission returns a promise
    that rejects with a reason other than undefined and null, the gate
    resolves to false; it logs the error, records the
    authorization-error counter once and the authorization duration
    once; and the request is served as with a provider that resolved
    false: same completion, and the same world once the error log and
    the error counter are taken out of the trace. *)
Theorem C1_rejection_denies (pRej pFalse : Provider) (e : JsValue) (w : World) :
  let target := buildActionAlias (name resource) actionName in
  pRej (req_user req) target (req_context req) = ReturnsPromise (Rejected e) ->
  e <> VUndefined -> e <> VNull ->
  pFalse (req_user req) target (req_context req) =
    ReturnsPromise (Fulfilled (VBool false)) ->
  let gate := checkPermissionFor (withAuth st (Some pRej))
                (req_user req) (req_context req) target w in
  let failed := serve (withAuth st (Some pRej)) resource actionName action req sent in
  let refused := serve (withAuth st (Some pFalse)) resource actionName action req sent in
  fst gate = Normal (Fulfilled (VBool false))
  /\ (exists evs,
        snd gate = withTrace w (trace w ++ evs)
        /\ count (isCounter authorizationErrors) evs = 1%nat
        /\ count authDuration evs = 1%nat
        /\ count isLogError evs = 1%nat)
  /\ fst failed = fst refused
  /\ withoutGateError (snd failed) = snd refused
  /\ count (isCounter authorizationErrors) (trace (snd failed)) = 1%nat
  /\ count (isCounter authorizationErrors) (trace (snd refused)) = 0%nat.
Proof.
  intros target Hrej Hu Hn Hfalse. unfold target in *. clear target.
  assert (Hstack : exists s, getStack e = Read s)
    by (destruct e; try (eexists; reflexivity); congruence).
  destruct Hstack as [s Hs].
  cbv zeta. split; [|split].
  - destruct w. unfold_route. cbn. rewrite Hrej. cbn. rewrite Hs. reflexivity.
  - destruct w. unfold_route. cbn. rewrite Hrej. cbn. rewrite Hs. cbn.
    eexists. split; [rewrite <- ?app_assoc; cbn; reflexivity|].
    repeat split.
  - unfold_route. cbn. rewrite Hrej, Hfalse. cbn. rewrite Hs. cbn.
    destruct sent; cbn; repeat split.
Qed.

(** A denied request: when the permission check resolves false the
    handler is never invoked, the reject counter records once, the
    attempt counter is hit by the dispatcher and again inside the gate,
    and the only response is status 403 with body "User lacks sufficient
    permissions", sent once when no headers had been sent and not at all
    when they had. *)
Lemma denied_request (provider : Provider) :
  auth st = Some provider ->
  provider (req_user req) (buildActionAlias (name resource) actionName)
    (req_context req) = ReturnsPromise (Fulfilled (VBool false)) ->
  let t := trace (snd (serve st resource actionName action req sent)) in
  count isHandlerInvoked t = 0%nat
  /\ count (isCounter authorizationRejections) t = 1%nat
  /\ count (isCounter authorizationAttempts) t = 2%nat
  /\ count (isCounter authorizationGrants) t = 0%nat
  /\ filter isResponse t = (if sent then [] else denial).
Proof.
  intros Hauth Hprov.
  unfold_route. rewrite Hauth. cbn -[respond]. rewrite Hprov.
  destruct sent; cbn; repeat split.
Qed.

(** A granted request: when the permission check resolves true the
    handler is invoked exactly once, the grant counter records once, the
    attempt counter is hit by the dispatcher and again inside the gate,
    the reject counter does not record and the dispatcher sends no
    response of its own, so no 403. *)
Lemma granted_request (provider : Provider) :
  auth st = Some provider ->
  provider (req_user req) (buildActionAlias (name resource) actionName)
    (req_context req) = ReturnsPromise (Fulfilled (VBool true)) ->
  let t := trace (snd (serve st resource actionName action req sent)) in
  count isHandlerInvoked t = 1%nat
  /\ count (isCounter authorizationGrants) t = 1%nat
  /\ count (isCounter authorizationAttempts) t = 2%nat
  /\ count (isCounter authorizationRejections) t = 0%nat
  /\ count isResponse t = 0%nat.
Proof.
  intros Hauth Hprov.
  unfold_route. rewrite Hauth. cbn -[respond]. rewrite Hprov. cbn -[respond].
  frame_respond. destruct c; cbn.
  all: repeat split; tail_count.
Qed.

(** C6: for every request (any provider or none, any settlement of the
    check, any handler outcome, either error strategy) the request
    duration has not been recorded when the callback and its
    continuations have run, and is recorded exactly once when the
    response finishes, however often 'finish' is emitted after that. *)
Theorem C6_duration_once :
  let w := snd (serve st resource actionName action req sent) in
  count apiDuration (trace w) = 0%nat
  /\ forall n, count apiDuration (trace (emitFinishTimes (S n) w)) = 1%nat.
Proof.
  destruct serve_frame as (evs & sent' & Hw & Hc).
  cbv zeta. rewrite Hw. cbn [trace]. split; [exact Hc|].
  intro n. cbn [emitFinishTimes]. unfold emitFinish. cbn.
  rewrite emitFinishTimes_idle by reflexivity. cbn [trace].
  rewrite count_app, Hc. reflexivity.
Qed.

(** C9: on a route wired without an authorization provider the
    permission-check closure attached to the request is undefined, the
    handler is invoked directly (right after the timer and the envelope
    are created, with no check and no hop before it) and exactly once,
    no authorization counter is recorded and the dispatcher sends no
    response of its own, so no 403. *)
Theorem C9_no_provider :
  auth st = None ->
  let meta := metaOf st resource actionName action [] [] in
  let w := snd (serve st resource actionName action req sent) in
  getPermissionCheck meta req = None
  /\ req_checkPermission w = None
  /\ count isAnyCounter (trace w) = 0%nat
  /\ count isResponse (trace w) = 0%nat
  /\ count isHandlerInvoked (trace w) = 1%nat
  /\ exists evs,
       trace w = TimerCreated (routeTimer resource actionName)
                 :: EnvelopeCreated (metricKey meta) :: HandlerInvoked :: evs
       /\ forallb respondTail evs = true.
Proof.
  intro Hauth. unfold metaOf. unfold_route. rewrite Hauth. cbn -[respond].
  frame_respond. cbn.
  repeat split; try tail_count.
  exists evs. split; [reflexivity | assumption].
Qed.

Section Dispatched.

Variables (routes : Routes) (resources : list Resource) (w : World).

Ltac run_respond :=
  unfold dispatched, metaOf; destruct w; unfold respond, getActionMetadata;
  unfold_respond; cbn.

(** C4, amended: a deferred result forwards its fulfilled value and its
    rejected value to the envelope's outcome handler through the same
    continuation, one hop later; a plain (non-deferred) result that is
    truthy and has no truthy [then] property is forwarded to the outcome
    handler directly; when the handler returns nothing the outcome
    handler is not called. *)
Theorem C4_result_forwarding (result : JsValue) :
  handle action req = Normal result ->
  let meta := metaOf st resource actionName action routes resources in
  let run := respond st meta req resource action w in
  (forall x, result = VPromise (Fulfilled x) \/ result = VPromise (Rejected x) ->
     run = dispatched meta w (Normal tt) [AsyncHop; HandleReturn x])
  /\ (truthy result = true -> isPlain result = true ->
      hasUncallableThen result = false ->
      run = dispatched meta w (Normal tt) [HandleReturn result])
  /\ (result = VUndefined -> run = dispatched meta w (Normal tt) []).
Proof.
  intro Hres. cbv zeta. repeat split.
  - intros x [-> | ->]; run_respond; rewrite Hres;
      destruct (truthy (handleRouteErrors (config st))); cbn;
      rewrite <- ?app_assoc; reflexivity.
  - intros Ht Hp Hthen. run_respond. rewrite Hres.
    destruct (truthy (handleRouteErrors (config st))); cbn; rewrite Ht;
      unfold isPlain, isDeferred, hasUncallableThen in Hp, Hthen;
      destruct (getThen result) as [p | t];
      try discriminate Hp; rewrite Hthen; cbn;
      rewrite <- ?app_assoc; reflexivity.
  - intros ->. run_respond. rewrite Hres.
    destruct (truthy (handleRouteErrors (config st))); cbn;
      rewrite <- ?app_assoc; reflexivity.
Qed.

(** A handler that throws.  The absorb flag of the metadata is the
    configuration's handleRouteErrors.  When the handler throws an Error
    and the flag is truthy, the exception is caught, logged, and handed
    to the envelope's outcome handler as the result.  When the flag is
    falsy, [respond] does not catch the exception, and on a route without
    an authorization provider it reaches the transport. *)
Lemma handler_throws (e : JsValue) :
  handle action req = Thrown e ->
  let meta := metaOf st resource actionName action routes resources in
  let run := respond st meta req resource action w in
  handleErrors meta = handleRouteErrors (config st)
  /\ (truthy (handleRouteErrors (config st)) = true ->
      forall message stack, e = VError message stack ->
      run = dispatched meta w (Normal tt)
              [LogError "API EXCEPTION! route: %s %s failed with %s"
                 [VStr (toUpperCase (method action)); showUrl (url action);
                  VStr stack];
               HandleReturn e])
  /\ (truthy (handleRouteErrors (config st)) = false ->
      run = dispatched meta w (Thrown e) []
      /\ (auth st = None ->
          fst (serve st resource actionName action req sent) = Thrown e)).
Proof.
  intro Hres. cbv zeta. split; [reflexivity|]. split.
  - intros Habsorb message stack ->. run_respond. rewrite Habsorb, Hres. cbn.
    rewrite <- ?app_assoc. reflexivity.
  - intro Hprop. split.
    + run_respond. rewrite Hprop, Hres. cbn. rewrite <- ?app_assoc. reflexivity.
    + intro Hauth. unfold_route. rewrite Hauth. unfold respond. unfold_respond.
      cbn. rewrite Hprop, Hres. reflexivity.
Qed.

(** C10: a handler that returns a falsy value (false, 0, the empty
    string, null, undefined, NaN) is dispatched exactly as one that
    returns nothing: the envelope is created, the handler invoked, and
    the envelope's outcome handler is not called. *)
Theorem C10_falsy_result (v : JsValue) :
  handle action req = Normal v ->
  truthy v = false ->
  let meta := metaOf st resource actionName action routes resources in
  let run := respond st meta req resource action w in
  run = dispatched meta w (Normal tt) []
  /\ run = respond st meta req resource (returningNothing action) w
  /\ count isHandleReturn (trace (snd run)) = count isHandleReturn (trace w).
Proof.
  intros Hres Hf. cbv zeta.
  assert (Hrun : respond st (metaOf st resource actionName action routes resources)
                   req resource action w
                 = dispatched (metaOf st resource actionName action routes resources)
                     w (Normal tt) []).
  { run_respond. rewrite Hres.
    destruct (truthy (handleRouteErrors (config st))); cbn; rewrite Hf;
      rewrite <- ?app_assoc; reflexivity. }
  split; [exact Hrun|]. split.
  - rewrite Hrun. unfold returningNothing. run_respond.
    destruct (truthy (handleRouteErrors (config st))); cbn;
      rewrite <- ?app_assoc; reflexivity.
  - rewrite Hrun. unfold dispatched. destruct w. cbn.
    rewrite count_app. apply Nat.add_0_r.
Qed.

End Dispatched.

End Served.

(** ** The claims at concrete requests *)

Module Runs.
Import Fixture.

(** C1, the claim as worded: a provider whose checkPermission throws
    instead of returning a promise.  The gate does not resolve to false:
    the exception leaves [checkPermissionFor] and the route callback, no
    authorization-error counter and no authorization duration is
    recorded, and no denial is produced. *)
Lemma C1_sync_throw_counterexample :
  let st := guarded defaultConfig (ThrowsSync boom) in
  let gate := checkPermissionFor st anonymous (VObject []) "widgets.get"
                (newWorld false) in
  let served := serve st widgets "get" (byId (returning (VStr "ok"))) request false in
  fst gate = Thrown boom
  /\ fst gate <> Normal (Fulfilled (VBool false))
  /\ count (isCounter authorizationErrors) (trace (snd gate)) = 0%nat
  /\ count authDuration (trace (snd gate)) = 0%nat
  /\ fst served = Thrown boom
  /\ count (isCounter authorizationRejections) (trace (snd served)) = 0%nat
  /\ filter isResponse (trace (snd served)) = [].
Proof.
  cbv zeta. split; [reflexivity|]. split; [discriminate|].
  repeat split.
Qed.

(** A rejection whose reason is undefined: reading its stack throws
    inside the error handler, so the gate's promise rejects and the
    request gets neither a denial nor the error counter. *)
Lemma gate_rejection_without_reason :
  let st := guarded defaultConfig (ReturnsPromise (Rejected VUndefined)) in
  let gate := checkPermissionFor st anonymous (VObject []) "widgets.get"
                (newWorld false) in
  let served := serve st widgets "get" (byId (returning (VStr "ok"))) request false in
  fst gate = Normal (Rejected (typeError "Cannot read property 'stack'"))
  /\ count (isCounter authorizationErrors) (trace (snd gate)) = 0%nat
  /\ filter isResponse (trace (snd served)) = [].
Proof. repeat split. Qed.

Lemma C1_rejection_denies_witness :
  let st := stateWith defaultConfig None in
  let failed :=
    serve (withAuth st (Some (provider (ReturnsPromise (Rejected boom)))))
      widgets "get" (byId (returning (VStr "ok"))) request false in
  let refused :=
    serve (withAuth st (Some (provider (ReturnsPromise (Fulfilled (VBool false))))))
      widgets "get" (byId (returning (VStr "ok"))) request false in
  fst failed = fst refused
  /\ withoutGateError (snd failed) = snd refused
  /\ count (isCounter authorizationErrors) (trace (snd failed)) = 1%nat
  /\ count (isCounter authorizationErrors) (trace (snd refused)) = 0%nat.
Proof.
  cbv zeta.
  apply (C1_rejection_denies (stateWith defaultConfig None) widgets "get"
           (byId (returning (VStr "ok"))) request false
           (provider (ReturnsPromise (Rejected boom)))
           (provider (ReturnsPromise (Fulfilled (VBool false))))
           boom (newWorld false));
    [reflexivity | discriminate | discriminate | reflexivity].
Defined.

(** C2: a denied request, headers not yet sent.  The handler is not
    invoked, the reject counter has recorded once and one 403 with the
    fixed body has been sent, as claimed; the attempt counter has
    recorded twice, where the claim has it record once. *)
Lemma C2_attempts_recorded_twice :
  let t := trace (snd (serve
                         (guarded defaultConfig
                            (ReturnsPromise (Fulfilled (VBool false))))
                         widgets "get" (byId (returning (VStr "ok")))
                         request false)) in
  count isHandlerInvoked t = 0%nat
  /\ count (isCounter authorizationRejections) t = 1%nat
  /\ filter isResponse t = denial
  /\ filter (isCounter authorizationAttempts) t =
       [CounterRecord authorizationAttempts 1 "HTTP_AUTHORIZATION_ATTEMPTS";
        CounterRecord authorizationAttempts 1 "HTTP_AUTHORIZATION_ATTEMPTS"]
  /\ count (isCounter authorizationAttempts) t <> 1%nat.
Proof.
  cbv zeta. repeat (split; [reflexivity|]). discriminate.
Qed.

Example denied_request_run :
  let t := trace (snd (serve
                         (guarded defaultConfig
                            (ReturnsPromise (Fulfilled (VBool false))))
                         widgets "get" (byId (returning (VStr "ok")))
                         request true)) in
  count (isCounter authorizationRejections) t = 1%nat
  /\ filter isResponse t = [].
Proof.
  pose proof (denied_request
                (guarded defaultConfig (ReturnsPromise (Fulfilled (VBool false))))
                widgets "get" (byId (returning (VStr "ok"))) request true
                (provider (ReturnsPromise (Fulfilled (VBool false))))
                eq_refl eq_refl) as H.
  cbv zeta in H. destruct H as (_ & H1 & _ & _ & H2). exact (conj H1 H2).
Qed.

(** C3: a granted request.  The handler is invoked once, the grant
    counter has recorded once and the dispatcher has sent no response,
    as claimed; the attempt counter has recorded twice, where the claim
    has it record once. *)
Lemma C3_attempts_recorded_twice :
  let t := trace (snd (serve
                         (guarded defaultConfig
                            (ReturnsPromise (Fulfilled (VBool true))))
                         widgets "get" (byId (returning (VStr "ok")))
                         request false)) in
  count isHandlerInvoked t = 1%nat
  /\ count (isCounter authorizationGrants) t = 1%nat
  /\ count isResponse t = 0%nat
  /\ filter (isCounter authorizationAttempts) t =
       [CounterRecord authorizationAttempts 1 "HTTP_AUTHORIZATION_ATTEMPTS";
        CounterRecord authorizationAttempts 1 "HTTP_AUTHORIZATION_ATTEMPTS"]
  /\ count (isCounter authorizationAttempts) t <> 1%nat.
Proof.
  cbv zeta. repeat (split; [reflexivity|]). discriminate.
Qed.

(** C4, the claim as worded: two plain, non-deferred results that are
    not forwarded to the envelope's outcome handler.  [false] is falsy,
    and the dispatch ends after the handler.  The object with a [then]
    property of 5 is truthy and no deferred value, its [then] being no
    method; the probe passes, the call of [then] throws, and nothing is
    forwarded. *)
Lemma C4_plain_counterexample :
  let st := stateWith defaultConfig None in
  let dispatch v :=
    respond st (metaOf st widgets "get" (byId (returning v)) [] []) request
      widgets (byId (returning v)) (newWorld false) in
  let thenFive := VObject [("then", VNum 5)] in
  (isPlain (VBool false) = true
   /\ isDeferred (VBool false) = false
   /\ fst (dispatch (VBool false)) = Normal tt
   /\ trace (snd (dispatch (VBool false))) =
        [EnvelopeCreated ["autohost"; "widgets-get"; "http"]; HandlerInvoked]
   /\ count isHandleReturn (trace (snd (dispatch (VBool false)))) = 0%nat)
  /\ (isPlain thenFive = true
      /\ isDeferred thenFive = false
      /\ truthy thenFive = true
      /\ hasUncallableThen thenFive = true
      /\ fst (dispatch thenFive) = Thrown (typeError "result.then is not a function")
      /\ trace (snd (dispatch thenFive)) =
           [EnvelopeCreated ["autohost"; "widgets-get"; "http"]; HandlerInvoked]
      /\ count isHandleReturn (trace (snd (dispatch thenFive))) = 0%nat).
Proof. repeat split. Qed.

Lemma C4_result_forwarding_witness :
  let st := stateWith defaultConfig None in
  let action := byId (returning (VStr "ok")) in
  let meta := metaOf st widgets "get" action [] [] in
  handle action request = Normal (VStr "ok")
  /\ truthy (VStr "ok") = true
  /\ isPlain (VStr "ok") = true
  /\ hasUncallableThen (VStr "ok") = false
  /\ respond st meta request widgets action (newWorld false) =
       dispatched meta (newWorld false) (Normal tt) [HandleReturn (VStr "ok")].
Proof.
  repeat (split; [reflexivity|]).
  exact (proj1 (proj2 (C4_result_forwarding (stateWith defaultConfig None)
                         widgets "get" (byId (returning (VStr "ok"))) request
                         [] [] (newWorld false) (VStr "ok") eq_refl))
           eq_refl eq_refl eq_refl).
Defined.

(** C5: a route with a provider that grants, the propagate strategy, a
    handler that throws.  The exception does not reach the transport, as
    the claim has it: the route callback returns normally, and the
    exception only rejects the promise of the permission continuation.
    On the same route without a provider it does reach the transport. *)
Lemma C5_throw_lost_behind_gate :
  let action := byId (throwing boom) in
  let guardedRun :=
    serve (guarded defaultConfig (ReturnsPromise (Fulfilled (VBool true))))
      widgets "get" action request false in
  let openRun :=
    serve (stateWith defaultConfig None) widgets "get" action request false in
  truthy (handleRouteErrors defaultConfig) = false
  /\ handle action request = Thrown boom
  /\ fst openRun = Thrown boom
  /\ fst guardedRun = Normal tt
  /\ fst guardedRun <> Thrown boom
  /\ count isHandlerInvoked (trace (snd guardedRun)) = 1%nat
  /\ count isHandleReturn (trace (snd guardedRun)) = 0%nat
  /\ count isResponse (trace (snd guardedRun)) = 0%nat.
Proof.
  cbv zeta. repeat (split; [reflexivity|]).
  split; [discriminate|]. repeat split.
Qed.

Example handler_throws_absorbed :
  let st := stateWith absorbConfig None in
  let action := byId (throwing boom) in
  let meta := metaOf st widgets "get" action [] [] in
  respond st meta request widgets action (newWorld false) =
    dispatched meta (newWorld false) (Normal tt)
      [LogError "API EXCEPTION! route: %s %s failed with %s"
         [VStr "GET"; VStr "/:id"; VStr "Error: boom"];
       HandleReturn boom].
Proof.
  exact (proj1 (proj2 (handler_throws (stateWith absorbConfig None)
                         widgets "get" (byId (throwing boom)) request false
                         [] [] (newWorld false) boom eq_refl))
           eq_refl "boom" "Error: boom" eq_refl).
Qed.

(** The hops before the response finishes vary with the branch: none
    without a provider and with a plain result, three behind a provider
    with a deferred result; the duration is recorded once either way. *)
Example duration_once_across_hops :
  let plain :=
    snd (serve (stateWith defaultConfig None) widgets "get"
           (byId (returning (VStr "ok"))) request false) in
  let deferred :=
    snd (serve (guarded defaultConfig (ReturnsPromise (Fulfilled (VBool true))))
           widgets "get"
           (byId (returning (VPromise (Fulfilled (VStr "ok"))))) request false) in
  count isAsyncHop (trace plain) = 0%nat
  /\ count isAsyncHop (trace deferred) = 3%nat
  /\ count apiDuration (trace (emitFinish plain)) = 1%nat
  /\ count apiDuration (trace (emitFinish deferred)) = 1%nat.
Proof. repeat split. Qed.

Lemma C9_no_provider_witness :
  let st := stateWith defaultConfig None in
  let action := byId (returning (VStr "ok")) in
  let w := snd (serve st widgets "get" action request false) in
  auth st = None
  /\ getPermissionCheck (metaOf st widgets "get" action [] []) request = None
  /\ req_checkPermission w = None
  /\ count isAnyCounter (trace w) = 0%nat
  /\ count isResponse (trace w) = 0%nat
  /\ count isHandlerInvoked (trace w) = 1%nat.
Proof.
  cbv zeta. split; [reflexivity|].
  pose proof (C9_no_provider (stateWith defaultConfig None) widgets "get"
                (byId (returning (VStr "ok"))) request false eq_refl) as H.
  cbv zeta in H.
  destruct H as (H1 & H2 & H3 & H4 & H5 & _).
  exact (conj H1 (conj H2 (conj H3 (conj H4 H5)))).
Defined.

Lemma C10_falsy_result_witness :
  let st := stateWith defaultConfig None in
  let action := byId (returning (VNum 0)) in
  let meta := metaOf st widgets "get" action [] [] in
  truthy (VNum 0) = false
  /\ respond st meta request widgets action (newWorld false) =
       dispatched meta (newWorld false) (Normal tt) []
  /\ respond st meta request widgets action (newWorld false) =
       respond st meta request widgets (returningNothing action) (newWorld false).
Proof.
  cbv zeta. split; [reflexivity|].
  pose proof (C10_falsy_result (stateWith defaultConfig None) widgets "get"
                (byId (returning (VNum 0))) request [] [] (newWorld false)
                (VNum 0) eq_refl eq_refl) as H.
  cbv zeta in H. destruct H as (H1 & H2 & _).
  exact (conj H1 H2).
Defined.

End Runs.

(** * Further properties of the adapter *)

Lemma filter_none (p q : Event -> bool) l :
  (forall e, q e = true -> p e = false) ->
  forallb q l = true -> filter p l = [].
Proof.
  intros Hpq. induction l as [|e l IH]; intro H; [reflexivity|].
  simpl in H. apply andb_prop in H as [He Hl].
  simpl. rewrite (Hpq e He). auto.
Qed.

Ltac tail_filter :=
  cbn [filter isResponse isProviderCalled];
  try match goal with
  | Ht : forallb respondTail ?evs = true |- context [filter ?p ?evs] =>
      rewrite (filter_none p respondTail evs)
        by (assumption ||
            (let e := fresh in let He := fresh in
             intros e He; destruct e; (discriminate He || reflexivity)))
  end;
  reflexivity.

Lemma precedes_none (p q r : Event -> bool) l :
  (forall e, r e = true -> q e = false) ->
  forallb r l = true -> precedes p q l = true.
Proof.
  intros Hrq. induction l as [|e l IH]; intro H; [reflexivity|].
  simpl in H. apply andb_prop in H as [He Hl].
  simpl. destruct (p e); [reflexivity|]. rewrite (Hrq e He). auto.
Qed.

Ltac tail_precedes :=
  cbn [precedes isCounter isProviderCalled isHandlerInvoked isResponse Metric_eqb];
  try match goal with
  | Ht : forallb respondTail ?evs = true |- context [precedes ?p ?q ?evs] =>
      rewrite (precedes_none p q respondTail evs)
        by (assumption ||
            (let e := fresh in let He := fresh in
             intros e He; destruct e; (discriminate He || reflexivity)))
  end;
  reflexivity.

(** ** The dispatcher behind a provider *)

Section Guarded.

Variables (st : State) (resource : Resource) (actionName : string)
  (action : Action) (req : Request) (sent : bool) (provider : Provider).

Hypothesis Hauth : auth st = Some provider.

Ltac run_guarded :=
  unfold grants, refuses, faults, readable, bit;
  unfold_route; rewrite Hauth; cbn -[respond];
  repeat (first [frame_respond | step]; cbn -[respond]).

(** X1: On a route with a provider the handler is invoked once when the
    check is fulfilled with a truthy value and not at all otherwise: not
    for a falsy decision, a rejection, a check that never settles or a
    provider that throws. *)
Theorem handler_runs_iff_granted :
  let decision := provider (req_user req)
                    (buildActionAlias (name resource) actionName) (req_context req) in
  count isHandlerInvoked
    (trace (snd (serve st resource actionName action req sent)))
  = bit (grants decision).
Proof.
  cbv zeta. run_guarded. all: tail_count.
Qed.

(** X2: On a route with a provider the dispatcher sends the 403 denial
    exactly when the check settles against the request (a falsy
    decision, or a rejection with a readable reason) and no headers had
    been sent; in every other case it sends nothing. *)
Theorem denial_iff_refused :
  let decision := provider (req_user req)
                    (buildActionAlias (name resource) actionName) (req_context req) in
  filter isResponse (trace (snd (serve st resource actionName action req sent)))
  = (if refuses decision && negb sent then denial else []).
Proof.
  cbv zeta. run_guarded. all: tail_filter.
Qed.

(** X3: The counters by outcome of the check: the grant counter records
    once exactly for a truthy decision, the reject counter once exactly
    for a refusal, the error counter once exactly for a rejection with a
    readable reason, and the authorization duration once exactly when
    the check settled one way or the other. *)
Theorem authorization_telemetry :
  let decision := provider (req_user req)
                    (buildActionAlias (name resource) actionName) (req_context req) in
  let t := trace (snd (serve st resource actionName action req sent)) in
  count (isCounter authorizationGrants) t = bit (grants decision)
  /\ count (isCounter authorizationRejections) t = bit (refuses decision)
  /\ count (isCounter authorizationErrors) t = bit (faults decision)
  /\ count authDuration t = bit (grants decision || refuses decision).
Proof.
  cbv zeta. run_guarded.
  all: repeat split; tail_count.
Qed.

(** X4: Order within a request on a route with a provider: the attempt is
    counted before the provider is consulted, the provider is consulted
    and the grant counted before the handler is invoked, and the
    provider is consulted and the rejection counted before any response
    of the dispatcher. *)
Theorem check_precedes_handler :
  let t := trace (snd (serve st resource actionName action req sent)) in
  precedes (isCounter authorizationAttempts) isProviderCalled t = true
  /\ precedes isProviderCalled isHandlerInvoked t = true
  /\ precedes (isCounter authorizationGrants) isHandlerInvoked t = true
  /\ precedes isProviderCalled isResponse t = true
  /\ precedes (isCounter authorizationRejections) isResponse t = true.
Proof.
  cbv zeta. run_guarded.
  all: repeat split; tail_precedes.
Qed.

(** X5: On a route with a provider every request consults it exactly once,
    with the request's user, the alias resource.action and the request's
    context. *)
Theorem provider_consulted_once :
  filter isProviderCalled
    (trace (snd (serve st resource actionName action req sent)))
  = [ProviderCalled (req_user req)
       (buildActionAlias (name resource) actionName) (req_context req)].
Proof.
  run_guarded. all: tail_filter.
Qed.

End Guarded.

(** ** One dispatch *)

Section Responding.

Variables (st : State) (resource : Resource) (actionName : string)
  (action : Action) (req : Request) (routes : Routes)
  (resources : list Resource) (w : World).

(** X6: Whatever the handler returns or throws, one dispatch creates one
    envelope, invokes the handler once, and after that hands at most one
    value to the envelope's outcome handler, logs at most one error and
    hops at most once; it records no counter or timer and sends no
    response of its own. *)
Theorem respond_footprint :
  let meta := metaOf st resource actionName action routes resources in
  exists c evs,
    respond st meta req resource action w = dispatched meta w c evs
    /\ forallb respondTail evs = true
    /\ (count isHandleReturn evs <= 1)%nat
    /\ (count isLogError evs <= 1)%nat
    /\ (count isAsyncHop evs <= 1)%nat.
Proof.
  cbv zeta. unfold dispatched, metaOf. destruct w.
  unfold respond, getActionMetadata. unfold_respond. cbn.
  repeat (step; cbn).
  all: eexists; eexists; split;
    [rewrite <- ?app_assoc; cbn; reflexivity |].
  all: split; [reflexivity|]; unfold count; cbn; lia.
Qed.

(** X7: Under the absorb strategy a dispatch completes normally whenever
    the handler does not throw undefined or null and the value it
    returned or threw is not a truthy one with a truthy [then] property
    that is no method.  In the two other cases it throws a TypeError and
    hands nothing to the envelope's outcome handler: when the handler
    throws undefined or null (reading the stack fails), and when the
    value returned or thrown is truthy with such a [then] property. *)
Theorem absorb_contains :
  truthy (handleRouteErrors (config st)) = true ->
  let outcome := handle action req in
  let run := respond st (metaOf st resource actionName action routes resources)
               req resource action w in
  ((forall e, outcome = Thrown e -> e <> VUndefined /\ e <> VNull) ->
   (forall v, outcome = Normal v \/ outcome = Thrown v ->
              truthy v = true -> hasUncallableThen v = false) ->
   fst run = Normal tt)
  /\ (outcome = Thrown VUndefined \/ outcome = Thrown VNull ->
      fst run = Thrown (typeError "Cannot read property 'stack'")
      /\ count isHandleReturn (trace (snd run)) = count isHandleReturn (trace w))
  /\ (forall v, outcome = Normal v \/ outcome = Thrown v ->
        truthy v = true -> hasUncallableThen v = true ->
        fst run = Thrown (typeError "result.then is not a function")
        /\ count isHandleReturn (trace (snd run)) = count isHandleReturn (trace w)).
Proof.
  intros Habsorb. cbv zeta. unfold metaOf, hasUncallableThen. destruct w.
  unfold respond, getActionMetadata. unfold_respond. cbn. rewrite Habsorb.
  split; [|split].
  - intros Hthrown Hshape.
    destruct (handle action req) as [v | e] eqn:Hh; cbn.
    + specialize (Hshape v (or_introl eq_refl)).
      destruct (truthy v); [|reflexivity]. specialize (Hshape eq_refl).
      destruct (getThen v) as [p | t]; cbn;
        [destruct p; reflexivity | rewrite Hshape; reflexivity].
    + destruct (Hthrown e eq_refl) as [Hu Hn].
      specialize (Hshape e (or_intror eq_refl)).
      assert (Hs : exists s, getStack e = Read s)
        by (destruct e; try (eexists; reflexivity); congruence).
      destruct Hs as [s Hs]. rewrite Hs. cbn.
      destruct (truthy e); [|reflexivity]. specialize (Hshape eq_refl).
      destruct (getThen e) as [p | t]; cbn;
        [destruct p; reflexivity | rewrite Hshape; reflexivity].
  - intros [-> | ->]; cbn; (split; [reflexivity|]);
      unfold count; rewrite ?filter_app, ?length_app; cbn; lia.
  - intros v [Hh | Hh] Ht Hthen; rewrite Hh; cbn.
    + rewrite Ht. destruct (getThen v) as [p | t]; [discriminate Hthen|].
      rewrite Hthen. cbn. split; [reflexivity|].
      unfold count; rewrite ?filter_app, ?length_app; cbn; lia.
    + assert (Hs : exists s, getStack v = Read s)
        by (destruct v; try (eexists; reflexivity); discriminate Ht).
      destruct Hs as [s Hs]. rewrite Hs. cbn. rewrite Ht.
      destruct (getThen v) as [p | t]; [discriminate Hthen|].
      rewrite Hthen. cbn. split; [reflexivity|].
      unfold count; rewrite ?filter_app, ?length_app; cbn; lia.
Qed.

End Responding.

Section Annotated.

Variables (st : State) (resource : Resource) (actionName : string)
  (action : Action) (req : Request) (sent : bool).

(** X8: Every request, whatever its branch and even when the provider
    throws, gets its metric key, resource name, action name and
    permission check attached, and exactly one one-shot 'finish'
    listener registered. *)
Theorem request_annotated :
  let w := snd (serve st resource actionName action req sent) in
  req_metricKey w =
    Some [metrics_prefix st; name resource ++ "-" ++ actionName; "http"]
  /\ req_resource w = Some (name resource)
  /\ req_action w = Some actionName
  /\ req_checkPermission w =
       match auth st with
       | Some _ => Some {| bound_user := req_user req;
                           bound_context := req_context req |}
       | None => None
       end
  /\ finishOnce w =
       [RecordTimer (routeTimer resource actionName) "HTTP_API_DURATION"].
Proof.
  destruct (serve_frame st resource actionName action req sent)
    as (evs & sent' & Hw & _).
  cbv zeta. rewrite Hw. repeat split.
Qed.

(** X9: The permission check attached to a request, called for any alias:
    it consults the provider once for the request's user and context,
    counts one attempt, never counts a grant or a rejection, never
    invokes a handler or sends a response, resolves to the provider's
    decision unchanged, and to false when the check failed. *)
Theorem bound_check_is_silent (provider : Provider) (c : BoundCheck)
    (target : string) (w : World) :
  auth st = Some provider ->
  getPermissionCheck (metaOf st resource actionName action [] []) req = Some c ->
  let decision := provider (req_user req) target (req_context req) in
  let r := callBoundCheck st c target w in
  exists evs,
    snd r = withTrace w (trace w ++ evs)
    /\ count (isCounter authorizationAttempts) evs = 1%nat
    /\ count (isCounter authorizationGrants) evs = 0%nat
    /\ count (isCounter authorizationRejections) evs = 0%nat
    /\ count isResponse evs = 0%nat
    /\ count isHandlerInvoked evs = 0%nat
    /\ filter isProviderCalled evs =
         [ProviderCalled (req_user req) target (req_context req)]
    /\ (forall v, decision = ReturnsPromise (Fulfilled v) ->
                  fst r = Normal (Fulfilled v))
    /\ (faults decision = true -> fst r = Normal (Fulfilled (VBool false))).
Proof.
  intros Hauth Hc. cbv zeta.
  unfold metaOf, getActionMetadata in Hc. cbn in Hc. rewrite Hauth in Hc.
  injection Hc as <-. unfold callBoundCheck. cbn [bound_user bound_context].
  unfold faults, readable. destruct w.
  unfold_route. rewrite Hauth. cbn.
  repeat (step; cbn).
  all: eexists; split; [rewrite <- ?app_assoc; cbn; reflexivity|].
  all: repeat split; try discriminate; try congruence.
Qed.

End Annotated.

(** ** More of the route builder *)

(** X10: When resource names contain no dot, the alias identifies the
    action: two aliases are equal only for the same resource and action
    names.  With a dot in a resource name it need not: the resource
    r.a with action b and the resource r with action a.b are two
    actions with one alias. *)
Theorem alias_identifies_action r1 a1 r2 a2 :
  (hasDot r1 = false -> hasDot r2 = false ->
   buildActionAlias r1 a1 = buildActionAlias r2 a2 -> r1 = r2 /\ a1 = a2)
  /\ (buildActionAlias (r1 ++ "." ++ a1) a2 =
        buildActionAlias r1 (a1 ++ "." ++ a2)
      /\ r1 ++ "." ++ a1 <> r1).
Proof.
  unfold buildActionAlias. split; [|split].
  - revert r2. induction r1 as [|c r1 IH]; intros [|d r2] H1 H2 E; cbn in *.
    + injection E as E. auto.
    + injection E as Ec E. subst d. cbn in H2. discriminate.
    + injection E as Ec E. subst c. cbn in H1. discriminate.
    + injection E as Ec E. subst d.
      apply orb_false_iff in H1 as [_ H1]. apply orb_false_iff in H2 as [_ H2].
      destruct (IH r2 H1 H2 E) as [-> ->]. auto.
  - induction r1 as [|c r1 IH]; cbn in *; [reflexivity | f_equal; exact IH].
  - induction r1 as [|c r1 IH]; cbn in *; [discriminate|].
    intro E. injection E as E. exact (IH E).
Qed.

(** X11: With a url strategy and neither urlPrefix nor apiPrefix configured
    (or both empty), on a transport that joins two empty segments to
    the empty string, the strategy's url is never given a prefix: not
    the default "api", and not the resource's own apiPrefix. *)
Theorem strategy_url_unprefixed_without_configured_prefix st resourceName
    actionName action resource resources strategy :
  isRegExp (url action) = false ->
  urlStrategy (config st) = Some strategy ->
  orEmpty (cfg_urlPrefix (config st)) = "" ->
  orEmpty (cfg_apiPrefix (config st)) = "" ->
  buildUrl (http st) [""; ""] = "" ->
  buildActionUrl st resourceName actionName action resource resources =
    Plain (buildUrl (http st)
             [""; strategy resourceName actionName action resources]).
Proof.
  intros Hre Hs Hu Ha Hj. unfold buildActionUrl, hasPrefix.
  rewrite Hs, Hu, Ha, Hj, indexOf_zero_prefix.
  destruct (url action); try discriminate Hre; cbn;
    destruct (strategy resourceName actionName action resources); reflexivity.
Qed.

(** ** Wiring *)

Lemma getRoute_setRoute k v r : getRoute k (setRoute k v r) = Some v.
Proof.
  induction r as [|[k' v'] r IH]; cbn.
  - rewrite String.eqb_refl. reflexivity.
  - destruct (String.eqb k k') eqn:E; cbn; rewrite ?String.eqb_refl, ?E; auto.
Qed.

Lemma getRoute_setRoute_other k k' v r :
  k' <> k -> getRoute k' (setRoute k v r) = getRoute k' r.
Proof.
  intro Hne. induction r as [|[k0 v0] r IH]; cbn.
  - destruct (String.eqb k' k) eqn:E; [apply String.eqb_eq in E; contradiction | reflexivity].
  - destruct (String.eqb k k0) eqn:E; cbn.
    + apply String.eqb_eq in E. subst k0.
      destruct (String.eqb k' k) eqn:E'; [apply String.eqb_eq in E'; contradiction | reflexivity].
    + destruct (String.eqb k' k0); auto.
Qed.

(** X12: Building the metadata of an action writes its entry of
    [meta.routes]: looking the action up gives its method and the url of
    the metadata, which is the built url, and the other entries are as
    they were. *)
Theorem metadata_describes_route st resource actionName action routes resources :
  let built := getActionMetadata st resource actionName action routes resources in
  getRoute actionName (snd built) = Some (method action, meta_url (fst built))
  /\ meta_url (fst built) =
       buildActionUrl st (name resource) actionName action resource resources
  /\ (forall other, other <> actionName ->
        getRoute other (snd built) = getRoute other routes).
Proof.
  cbv zeta. unfold getActionMetadata. cbn. split; [apply getRoute_setRoute|].
  split; [reflexivity|]. intros other Hne. apply getRoute_setRoute_other, Hne.
Qed.

Lemma setRoute_fresh k v r :
  ~ In k (map fst r) -> setRoute k v r = (r ++ [(k, v)])%list.
Proof.
  induction r as [|[k' v'] r IH]; cbn; intro H; [reflexivity|].
  destruct (String.eqb k k') eqn:E.
  - apply String.eqb_eq in E. subst k'. exfalso. auto.
  - rewrite IH by auto. reflexivity.
Qed.

Lemma wireupActions_routes st resource resources acts :
  forall routes,
    NoDup (map fst routes ++ map fst acts)%list ->
    snd (wireupActions st resource acts routes resources) =
      (routes ++ map (describe st resource resources) acts)%list.
Proof.
  induction acts as [|[an a] acts IH]; intros routes Hnd; cbn.
  - rewrite app_nil_r. reflexivity.
  - destruct (wireupActions st resource acts
                (setRoute an
                   (method a, buildActionUrl st (name resource) an a resource resources)
                   routes) resources) as [rs routes''] eqn:E.
    cbn. change routes'' with (snd (rs, routes'')). rewrite <- E.
    cbn in Hnd. apply NoDup_remove in Hnd as [Hnd Hnotin].
    assert (Hfresh : ~ In an (map fst routes)) by (intro; apply Hnotin, in_or_app; auto).
    rewrite setRoute_fresh by exact Hfresh.
    rewrite IH.
    + rewrite <- app_assoc. reflexivity.
    + rewrite map_app. cbn. rewrite <- app_assoc. cbn.
      apply NoDup_Add with (a := an) (l := (map fst routes ++ map fst acts)%list).
      * apply Add_app.
      * split; assumption.
Qed.

Lemma wireupActions_registered st resource resources acts :
  forall routes,
    Forall2 (wiredFor st resource resources) acts
      (fst (wireupActions st resource acts routes resources)).
Proof.
  induction acts as [|[an a] acts IH]; intro routes; cbn.
  - constructor.
  - destruct (wireupActions st resource acts
                (setRoute an
                   (method a, buildActionUrl st (name resource) an a resource resources)
                   routes) resources) as [rs routes''] eqn:E.
    cbn. constructor.
    + repeat split.
    + change rs with (fst (rs, routes'')). rewrite <- E. apply IH.
Qed.

Lemma buildPath_pair env a b :
  buildPath env (PathArray [a; b]) =
    Normal ((if String.prefix "./" a then "./" else "")
            ++ replaceTilde (env_HOME env) (path_join env [a; b])).
Proof. unfold buildPath. destruct (String.prefix "./" a); reflexivity. Qed.

(** X13: Wiring a resource whose action names are distinct never fails; the
    routes of the returned metadata are the actions in order, each with
    its method and built url, and the transport gets one route per
    action, in order, with that url and method and the dispatcher for
    that action as its callback. *)
Theorem resource_routes_described env st resource assets basePath resources :
  NoDup (map fst (actions resource)) ->
  exists wiring,
    wireupResource env st resource assets basePath resources = Normal wiring
    /\ rm_routes (wired_meta wiring) =
         map (describe st resource resources) (actions resource)
    /\ Forall2 (wiredFor st resource resources) (actions resource)
         (wired_routes wiring).
Proof.
  intro Hnd. unfold wireupResource.
  pose proof (wireupActions_routes st resource resources (actions resource) [] Hnd) as Hr.
  pose proof (wireupActions_registered st resource resources (actions resource) []) as Hf.
  destruct (wireupActions st resource (actions resource) [] resources)
    as [registered routes].
  cbn in Hr, Hf. subst routes.
  destruct (declTruthy (declared assets));
    [destruct (declared assets) as [[p | o] |]; rewrite ?buildPath_pair|];
    eexists; split; try reflexivity; cbn; auto.
Qed.

(** X14: A static declaration given as an options object is written to: the
    path of the resource's own object becomes the built directory, so
    wiring the resource again builds its directory from the directory of
    the first wiring, not from the declared path. *)
Theorem static_options_written_back env st resource assets basePath resources o :
  asset_static assets = Some (DeclOptions o) ->
  exists first second,
    wireupResource env st resource assets basePath resources = Normal first
    /\ wireupResource env st resource (wired_assets first) basePath resources
       = Normal second
    /\ (exists dir1,
          buildPath env (PathArray [basePath; static_path o]) = Normal dir1
          /\ rm_path (wired_meta first) = Some ("/" ++ name resource, dir1)
          /\ asset_static (wired_assets first) =
               Some (DeclOptions {| static_path := dir1;
                                    static_rest := static_rest o |})
          /\ exists dir2,
               buildPath env (PathArray [basePath; dir1]) = Normal dir2
               /\ rm_path (wired_meta second) = Some ("/" ++ name resource, dir2)).
Proof.
  intro Hs.
  destruct (wireupActions st resource (actions resource) [] resources)
    as [registered routes] eqn:Hw.
  assert (Hwire : forall o',
            wireupResource env st resource
              {| asset_static := Some (DeclOptions o');
                 asset_resources := asset_resources assets |}
              basePath resources =
            Normal
              {| wired_meta :=
                   {| rm_routes := routes;
                      rm_path :=
                        Some ("/" ++ name resource,
                              (if String.prefix "./" basePath then "./" else "")
                              ++ replaceTilde (env_HOME env)
                                   (path_join env [basePath; static_path o'])) |};
                 wired_routes := registered;
                 wired_static :=
                   Some ("/" ++ name resource,
                         {| static_path :=
                              (if String.prefix "./" basePath then "./" else "")
                              ++ replaceTilde (env_HOME env)
                                   (path_join env [basePath; static_path o']);
                            static_rest := static_rest o' |});
                 wired_assets :=
                   {| asset_static :=
                        Some (DeclOptions
                                {| static_path :=
                                     (if String.prefix "./" basePath then "./" else "")
                                     ++ replaceTilde (env_HOME env)
                                          (path_join env [basePath; static_path o']);
                                   static_rest := static_rest o' |});
                      asset_resources := asset_resources assets |} |}).
  { intro o'. unfold wireupResource, declared. cbn -[buildPath].
    rewrite buildPath_pair, Hw. reflexivity. }
  destruct assets as [s r]. cbn in Hs. subst s. cbn [asset_resources] in Hwire.
  eexists; eexists. split; [apply Hwire|]. cbn [wired_assets].
  split; [apply Hwire|].
  eexists. split; [apply buildPath_pair|]. cbn.
  split; [reflexivity|]. split; [reflexivity|].
  eexists. split; [apply buildPath_pair | reflexivity].
Qed.

(** X15: A static declaration given as a path, or none at all, leaves the
    resource's declarations as they were; a non-empty path is mounted at
    '/' followed by the resource name with the built directory, and
    without one nothing is mounted and the metadata has no path. *)
Theorem static_path_left_alone env st resource assets basePath resources :
  match declared assets with
  | Some (DeclOptions _) => False
  | _ => True
  end ->
  exists wiring,
    wireupResource env st resource assets basePath resources = Normal wiring
    /\ wired_assets wiring = assets
    /\ match declared assets with
       | Some (DeclPath p) =>
           if String.eqb p "" then
             wired_static wiring = None /\ rm_path (wired_meta wiring) = None
           else
             exists dir,
               buildPath env (PathArray [basePath; p]) = Normal dir
               /\ wired_static wiring =
                    Some ("/" ++ name resource,
                          {| static_path := dir; static_rest := [] |})
               /\ rm_path (wired_meta wiring) = Some ("/" ++ name resource, dir)
       | _ => wired_static wiring = None /\ rm_path (wired_meta wiring) = None
       end.
Proof.
  intro Hd. unfold wireupResource.
  destruct (wireupActions st resource (actions resource) [] resources)
    as [registered routes].
  destruct (declared assets) as [[p | o] |]; [| contradiction |]; cbn.
  - destruct (String.eqb p "") eqn:E; cbn.
    + eexists. repeat split.
    + destruct (String.prefix "./" basePath); eexists;
        (split; [reflexivity|]); (split; [reflexivity|]);
        eexists; repeat split.
  - eexists. repeat split.
Qed.

(** ** Paths *)

Lemma substitution_plain matched following r :
  hasDollar r = false -> substitution matched following r = r.
Proof.
  induction r as [|a tail IH]; cbn; intro H; [reflexivity|].
  apply orb_false_iff in H as [Ha Ht]. rewrite Ha. rewrite IH by exact Ht.
  reflexivity.
Qed.

(** X16: With HOME set to a text without dollar signs, a path that starts
    with a tilde has it replaced by HOME; any other string is returned
    as it is, and an absent or empty path gives the empty string. *)
Theorem buildPath_expands_home env h rest :
  env_HOME env = Some h ->
  hasDollar h = false ->
  buildPath env (PathString (String "~" rest)) = Normal (h ++ rest)
  /\ (forall c s, Ascii.eqb c "~" = false ->
        buildPath env (PathString (String c s)) = Normal (String c s))
  /\ buildPath env PathUndefined = Normal ""
  /\ buildPath env (PathString "") = Normal "".
Proof.
  intros Hh Hd. unfold buildPath, replaceTilde. rewrite Hh. cbn [homeText].
  repeat split.
  - cbn. rewrite substitution_plain by exact Hd. reflexivity.
  - intros c s Hc. rewrite Hc. reflexivity.
Qed.

(** X17: An empty array of parts throws; a non-empty one never does, the
    result starts with "./" whenever the first part does, and is the
    joined path with its tilde expanded otherwise. *)
Theorem buildPath_keeps_local_prefix env first rest :
  buildPath env (PathArray []) =
    Thrown (typeError "Cannot read property 'match' of undefined")
  /\ exists p,
       buildPath env (PathArray (first :: rest)) = Normal p
       /\ (String.prefix "./" first = true -> String.prefix "./" p = true)
       /\ (String.prefix "./" first = false ->
           p = replaceTilde (env_HOME env) (path_join env (first :: rest))).
Proof.
  split; [reflexivity|]. unfold buildPath.
  destruct (String.prefix "./" first); eexists; split; try reflexivity;
    split; intro H; try discriminate H; cbn; try reflexivity.
  destruct (replaceTilde _ _); reflexivity.
Qed.

(** ** Bootstrap *)

Module Boot.
Import Index.

Lemma skip_calls (l added : list BootCall) :
  skipn (length l) (l ++ added)%list = added.
Proof. induction l; cbn; auto. Qed.

Ltac added_calls :=
  unfold since; cbn; rewrite <- ?app_assoc; cbn; rewrite ?skip_calls.

Lemma initialize_resolved cwd cfg authProvider fount start w a :
  resolves authProvider = Some a ->
  initialize cwd cfg authProvider fount start w =
  initialize cwd cfg (AuthPlain a) fount start w.
Proof.
  destruct authProvider as [q | [q | e |]]; intro H; try discriminate H;
    cbn in H; injection H as <-; reflexivity.
Qed.

(** X18: Once the module is initialized, initializing again creates the api
    and restarts the adapters, and nothing else: the configuration, the
    provider, the metadata and the passport stay those of the first
    initialization, whatever is passed now. *)
Theorem reinitialize_restarts_adapters_only cwd cfg authProvider fount start w :
  initialized w = true ->
  let r := initialize cwd cfg authProvider fount start w in
  fst r = Ready
  /\ since w (snd r) = [ApiFn cfg; StartAdapters]
  /\ initialized (snd r) = true
  /\ w_config (snd r) = w_config w
  /\ w_auth (snd r) = w_auth w
  /\ w_meta (snd r) = w_meta w
  /\ passport (snd r) = passport w
  /\ w_fount (snd r) = fount.
Proof.
  intro Hi. destruct w as [i c a m f p cs]. cbn in Hi. subst i.
  added_calls. repeat split.
Qed.

(** X19: While the promise of a provider has not fulfilled (it is pending or
    rejected), nothing is wired: the api and the middleware are created
    and that is all; the module stays uninitialized, its provider is
    unchanged, and the returned promise waits or fails with the promise's
    reason. *)
Theorem unsettled_provider_wires_nothing cwd cfg authProvider fount start w :
  initialized w = false ->
  resolves authProvider = None ->
  let r := initialize cwd cfg authProvider fount start w in
  since w (snd r) = [ApiFn cfg; MiddlewareLib cfg]
  /\ initialized (snd r) = false
  /\ w_auth (snd r) = w_auth w
  /\ w_meta (snd r) = w_meta w
  /\ fst r = match authProvider with
             | AuthPromise (AuthRejected e) => Failed e
             | _ => Waiting
             end.
Proof.
  intros Hi Hr. destruct w as [i c a m f p cs]. cbn in Hi. subst i.
  destruct authProvider as [q | [q | e |]]; try discriminate Hr.
  all: added_calls; repeat split.
Qed.

(** X20: A first initialization with a provider that resolves (given as such,
    or as a promise that fulfils) hands that provider, and no other, to
    both adapters and to api.start, and keeps it as the module's
    provider; it creates one transport, a passport exactly when there is
    a provider, mounts the OPTIONS middleware at '/api' exactly when
    noOptions is falsy, and leaves the module initialized exactly when
    api.start fulfilled. *)
Theorem first_initialize_wires_once cwd cfg authProvider fount start w a :
  initialized w = false ->
  resolves authProvider = Some a ->
  let w' := snd (initialize cwd cfg authProvider fount start w) in
  let added := since w w' in
  w_auth w' = a
  /\ w_config w' = Some cfg
  /\ filter isHttpFn added =
       [HttpFn cfg (match a with Some p => Some p | None => passport w end)]
  /\ filter isAdapterFn added = [HttpAdapterFn cfg a; SocketAdapterFn cfg a]
  /\ filter isApiStart added = [ApiStart (resourceDir cwd cfg) a]
  /\ filter isPassportFn added =
       match a with Some p => [PassportFn cfg p] | None => [] end
  /\ filter isMountOptions added =
       (if truthy (noOptions cfg) then [] else [MountOptions "/api"])
  /\ initialized w' = started start.
Proof.
  intros Hi Hr. destruct w as [i c au m f p cs]. cbn in Hi. subst i.
  cbv zeta. rewrite (initialize_resolved _ _ _ _ _ _ _ Hr). clear Hr.
  destruct a as [q|], start as [mt | e' |];
    unfold initialize, setup; cbn; destruct (truthy (noOptions cfg)).
  all: added_calls; repeat split.
Qed.

(** X21: The module counts as initialized only once api.start has fulfilled:
    when a first initialization's start failed or has not settled, a
    second initialization sets everything up again, with a second
    transport and the second configuration; when it fulfilled, the second
    one creates no transport and keeps the first configuration. *)
Theorem second_initialize_after_start cwd cfg1 cfg2 auth1 auth2 f1 f2 s1 s2
    w a1 a2 :
  initialized w = false ->
  resolves auth1 = Some a1 ->
  resolves auth2 = Some a2 ->
  let w1 := snd (initialize cwd cfg1 auth1 f1 s1 w) in
  let w2 := snd (initialize cwd cfg2 auth2 f2 s2 w1) in
  length (filter isHttpFn (since w w2)) = (if started s1 then 1 else 2)%nat
  /\ w_config w2 = Some (if started s1 then cfg1 else cfg2)
  /\ w_auth w2 = (if started s1 then a1 else a2).
Proof.
  intros Hi H1 H2. destruct w as [i c au m f p cs]. cbn in Hi. subst i.
  cbv zeta. rewrite (initialize_resolved _ _ _ _ _ _ _ H1).
  rewrite (initialize_resolved _ _ _ _ _ _ _ H2). clear H1 H2.
  destruct a1 as [p1|], a2 as [p2|], s1 as [m1 | e1 |], s2 as [m2 | e2 |];
    unfold initialize, setup; cbn;
    destruct (truthy (noOptions cfg1)); cbn;
    destruct (truthy (noOptions cfg2)).
  all: added_calls; repeat split.
Qed.

(** X22: After a first initialization with a provider that resolves and
    with noOptions falsy, the OPTIONS middleware is mounted at '/api',
    and it answers an OPTIONS request with status 200 and, once
    api.start has fulfilled, its metadata with the advertised prefix,
    which is the configured apiPrefix when that is a non-empty string
    and '/api' otherwise; until then it answers with the metadata the
    module had before (none on a fresh module).  The advertised prefix
    is never empty. *)
Theorem options_reply_follows_start cwd cfg authProvider fount start w a :
  initialized w = false ->
  resolves authProvider = Some a ->
  truthy (noOptions cfg) = false ->
  let w' := snd (initialize cwd cfg authProvider fount start w) in
  filter isMountOptions (since w w') = [MountOptions "/api"]
  /\ optionsMiddleware w' "OPTIONS" =
       Replied 200
         (match start with
          | Started m => Some {| described := described m;
                                 prefix := Some (advertisedPrefix cfg) |}
          | _ => w_meta w
          end)
  /\ optionsMiddleware w' "options" = optionsMiddleware w' "OPTIONS"
  /\ advertisedPrefix cfg <> ""
  /\ (advertisedPrefix cfg = "/api"
      \/ cfg_apiPrefix (adapterConfig cfg) = Some (advertisedPrefix cfg)).
Proof.
  intros Hi Hr Hno. destruct w as [i c au m f p cs]. cbn in Hi. subst i.
  cbv zeta. rewrite (initialize_resolved _ _ _ _ _ _ _ Hr).
  split; [|split; [|split; [reflexivity|]]].
  - destruct a as [q|], start as [mt | e' |];
      unfold initialize, setup; cbn; rewrite Hno; added_calls; reflexivity.
  - destruct a as [q|], start as [mt | e' |];
      unfold initialize, setup; cbn; rewrite Hno; reflexivity.
  - unfold advertisedPrefix, nonEmpty.
    destruct (cfg_apiPrefix (adapterConfig cfg)) as [s|];
      [destruct (String.eqb s "") eqn:E|]; cbn.
    + split; [discriminate | left; reflexivity].
    + split; [|right; reflexivity].
      intros ->. discriminate E.
    + split; [discriminate | left; reflexivity].
Qed.

(** X23: The prefix advertised to OPTIONS requests and the api prefix the
    adapter builds urls with (for a resource without its own apiPrefix)
    are the same text exactly when apiPrefix is configured as a
    non-empty string: unset, they are '/api' and 'api'; set to the empty
    string, '/api' is advertised while urls are built without prefix. *)
Theorem advertised_prefix_agrees cfg st resource :
  config st = adapterConfig cfg ->
  apiPrefix resource = None ->
  advertisedPrefix cfg = apiPrefixFor st resource
  <-> exists p, cfg_apiPrefix (adapterConfig cfg) = Some p /\ p <> "".
Proof.
  intros Hc Hr. unfold advertisedPrefix, apiPrefixFor, nonEmpty.
  rewrite Hr, Hc.
  destruct (cfg_apiPrefix (adapterConfig cfg)) as [s|].
  - destruct (String.eqb s "") eqn:E.
    + apply String.eqb_eq in E. subst s. split.
      * intro H. discriminate H.
      * intros (p & Hp & Hne). injection Hp as <-. contradiction.
    + split; [|reflexivity]. intros _. exists s. split; [reflexivity|].
      intros ->. discriminate E.
  - split; [intro H; discriminate H|]. intros (p & Hp & _). discriminate Hp.
Qed.

End Boot.

(** ** The further properties at concrete inputs *)

Module Checks.
Import Fixture Sample.

Lemma handler_runs_iff_granted_witness :
  count isHandlerInvoked
    (trace (snd (serve (guarded defaultConfig (ReturnsPromise (Fulfilled (VStr "yes"))))
                   widgets "get" (byId (returning (VStr "ok"))) request false)))
  = 1%nat.
Proof.
  exact (handler_runs_iff_granted
           (guarded defaultConfig (ReturnsPromise (Fulfilled (VStr "yes"))))
           widgets "get" (byId (returning (VStr "ok"))) request false
           (provider (ReturnsPromise (Fulfilled (VStr "yes")))) eq_refl).
Defined.

Lemma denial_iff_refused_witness :
  filter isResponse
    (trace (snd (serve (guarded defaultConfig (ReturnsPromise (Fulfilled VNull)))
                   widgets "get" (byId (returning (VStr "ok"))) request false)))
  = denial.
Proof.
  exact (denial_iff_refused
           (guarded defaultConfig (ReturnsPromise (Fulfilled VNull)))
           widgets "get" (byId (returning (VStr "ok"))) request false
           (provider (ReturnsPromise (Fulfilled VNull))) eq_refl).
Defined.

Lemma authorization_telemetry_witness :
  let t := trace (snd (serve (guarded defaultConfig (ReturnsPromise (Rejected boom)))
                         widgets "get" (byId (returning (VStr "ok"))) request false)) in
  count (isCounter authorizationGrants) t = 0%nat
  /\ count (isCounter authorizationRejections) t = 1%nat
  /\ count (isCounter authorizationErrors) t = 1%nat
  /\ count authDuration t = 1%nat.
Proof.
  exact (authorization_telemetry
           (guarded defaultConfig (ReturnsPromise (Rejected boom)))
           widgets "get" (byId (returning (VStr "ok"))) request false
           (provider (ReturnsPromise (Rejected boom))) eq_refl).
Defined.

Lemma check_precedes_handler_witness :
  let t := trace (snd (serve (stateWith defaultConfig (Some allow))
                         widgets "get" (byId (returning (VStr "ok"))) request false)) in
  precedes isProviderCalled isHandlerInvoked t = true
  /\ count isHandlerInvoked t = 1%nat.
Proof.
  split.
  - exact (proj1 (proj2 (check_precedes_handler
                           (stateWith defaultConfig (Some allow))
                           widgets "get" (byId (returning (VStr "ok")))
                           request false allow eq_refl))).
  - reflexivity.
Defined.

Lemma provider_consulted_once_witness :
  filter isProviderCalled
    (trace (snd (serve (stateWith defaultConfig (Some allow))
                   widgets "get" (byId (returning (VStr "ok"))) request false)))
  = [ProviderCalled anonymous "widgets.get" (VObject [])].
Proof.
  exact (provider_consulted_once
           (stateWith defaultConfig (Some allow))
           widgets "get" (byId (returning (VStr "ok"))) request false allow
           eq_refl).
Defined.

Lemma absorb_contains_witness :
  let st := stateWith absorbConfig None in
  let dispatch h :=
    fst (respond st (metaOf st widgets "get" (byId h) [] []) request widgets
           (byId h) (newWorld false)) in
  truthy (handleRouteErrors (config st)) = true
  /\ dispatch (throwing boom) = Normal tt
  /\ dispatch (throwing VUndefined) =
       Thrown (typeError "Cannot read property 'stack'")
  /\ dispatch (returning (VObject [("then", VNum 5)])) =
       Thrown (typeError "result.then is not a function").
Proof.
  cbv zeta. split; [reflexivity|]. split; [|split].
  - apply (proj1 (absorb_contains (stateWith absorbConfig None) widgets "get"
                    (byId (throwing boom)) request [] [] (newWorld false)
                    eq_refl)).
    + intros e H. injection H as <-. split; discriminate.
    + intros v [H | H] _; [discriminate H | injection H as <-; reflexivity].
  - exact (proj1 (proj1 (proj2 (absorb_contains (stateWith absorbConfig None)
                                  widgets "get" (byId (throwing VUndefined))
                                  request [] [] (newWorld false) eq_refl))
                    (or_introl eq_refl))).
  - exact (proj1 (proj2 (proj2 (absorb_contains (stateWith absorbConfig None)
                                  widgets "get"
                                  (byId (returning (VObject [("then", VNum 5)])))
                                  request [] [] (newWorld false) eq_refl))
                    (VObject [("then", VNum 5)]) (or_introl eq_refl)
                    eq_refl eq_refl)).
Defined.

Lemma bound_check_is_silent_witness :
  fst (callBoundCheck (stateWith defaultConfig (Some allow))
         {| bound_user := anonymous; bound_context := VObject [] |}
         "widgets.list" (newWorld false))
  = Normal (Fulfilled (VBool true)).
Proof.
  destruct (bound_check_is_silent (stateWith defaultConfig (Some allow))
              widgets "get" (byId (returning (VStr "ok"))) request allow
              {| bound_user := anonymous; bound_context := VObject [] |}
              "widgets.list" (newWorld false) eq_refl eq_refl)
    as (evs & _ & _ & _ & _ & _ & _ & _ & Hv & _).
  exact (Hv (VBool true) eq_refl).
Defined.

Lemma alias_identifies_action_witness :
  (hasDot "widgets" = false /\ hasDot "gadgets" = false)
  /\ buildActionAlias "widgets" "get" <> buildActionAlias "gadgets" "get"
  /\ buildActionAlias "widgets" "get" <> buildActionAlias "widgets" "list"
  /\ buildActionAlias "a.b" "c" = buildActionAlias "a" "b.c".
Proof.
  split; [split; reflexivity|]. split; [|split].
  - intro E.
    destruct (proj1 (alias_identifies_action "widgets" "get" "gadgets" "get")
                eq_refl eq_refl E) as [H _].
    discriminate H.
  - intro E.
    destruct (proj1 (alias_identifies_action "widgets" "get" "widgets" "list")
                eq_refl eq_refl E) as [_ H].
    discriminate H.
  - exact (proj1 (proj2 (alias_identifies_action "a" "b" "widgets" "c"))).
Defined.

Lemma strategy_url_unprefixed_witness :
  let cfg :=
    {| cfg_apiPrefix := None; cfg_urlPrefix := None;
       urlStrategy := Some (fun r a _ _ => r ++ "/" ++ a);
       handleRouteErrors := VUndefined |} in
  buildActionUrl (stateWith cfg None) "widgets" "get"
    (byId (returning VUndefined)) widgets [] = Plain "/widgets/get".
Proof.
  exact (strategy_url_unprefixed_without_configured_prefix
           (stateWith
              {| cfg_apiPrefix := None; cfg_urlPrefix := None;
                 urlStrategy := Some (fun r a _ _ => r ++ "/" ++ a);
                 handleRouteErrors := VUndefined |} None)
           "widgets" "get" (byId (returning VUndefined)) widgets [] _
           eq_refl eq_refl eq_refl eq_refl eq_refl).
Defined.

Lemma metadata_describes_route_witness :
  let built := getActionMetadata (stateWith defaultConfig None) widgets "get"
                 (byId (returning VUndefined))
                 [("list", ("get", Plain "/api/widgets"))] [] in
  getRoute "get" (snd built) = Some ("get", Plain "/api/widgets/:id")
  /\ getRoute "list" (snd built) = Some ("get", Plain "/api/widgets").
Proof.
  destruct (metadata_describes_route (stateWith defaultConfig None) widgets "get"
              (byId (returning VUndefined))
              [("list", ("get", Plain "/api/widgets"))] [])
    as (H1 & _ & H3).
  split; [exact H1|].
  exact (H3 "list" ltac:(discriminate)).
Defined.

Lemma catalog_names_distinct : NoDup (map fst (actions catalog)).
Proof.
  repeat constructor; cbn; intuition discriminate.
Qed.

Lemma resource_routes_described_witness :
  exists wiring,
    wireupResource unix (stateWith defaultConfig None) catalog
      {| asset_static := None; asset_resources := None |} "/srv" [] = Normal wiring
    /\ rm_routes (wired_meta wiring) =
         [("list", ("get", Plain "/api/catalog"));
          ("get", ("get", Plain "/api/catalog/:id"))]
    /\ length (wired_routes wiring) = 2%nat.
Proof.
  destruct (resource_routes_described unix (stateWith defaultConfig None) catalog
              {| asset_static := None; asset_resources := None |} "/srv" []
              catalog_names_distinct)
    as (wiring & Hw & Hr & Hf).
  exists wiring. split; [exact Hw|]. split; [exact Hr|].
  apply Forall2_length in Hf. symmetry. exact Hf.
Defined.

Lemma static_options_written_back_witness :
  exists first second,
    wireupResource unix (stateWith defaultConfig None) catalog
      {| asset_static := Some (DeclOptions publicOptions); asset_resources := None |}
      "srv" [] = Normal first
    /\ wireupResource unix (stateWith defaultConfig None) catalog
         (wired_assets first) "srv" [] = Normal second
    /\ rm_path (wired_meta first) = Some ("/catalog", "srv/public")
    /\ rm_path (wired_meta second) = Some ("/catalog", "srv/srv/public").
Proof.
  destruct (static_options_written_back unix (stateWith defaultConfig None) catalog
              {| asset_static := Some (DeclOptions publicOptions);
                 asset_resources := None |} "srv" [] publicOptions eq_refl)
    as (first & second & H1 & H2 & dir1 & Hd1 & Hp1 & _ & dir2 & Hd2 & Hp2).
  exists first, second. split; [exact H1|]. split; [exact H2|].
  cbn in Hd1. injection Hd1 as <-. cbn in Hd2. injection Hd2 as <-.
  split; [exact Hp1 | exact Hp2].
Defined.

Lemma static_path_left_alone_witness :
  exists wiring,
    wireupResource unix (stateWith defaultConfig None) catalog
      {| asset_static := Some (DeclPath "~/public"); asset_resources := None |}
      "./site" [] = Normal wiring
    /\ wired_assets wiring =
         {| asset_static := Some (DeclPath "~/public"); asset_resources := None |}.
Proof.
  destruct (static_path_left_alone unix (stateWith defaultConfig None) catalog
              {| asset_static := Some (DeclPath "~/public");
                 asset_resources := None |} "./site" [] I)
    as (wiring & Hw & Ha & _).
  exists wiring. split; [exact Hw | exact Ha].
Defined.

Lemma buildPath_expands_home_witness :
  buildPath unix (PathString "~/public") = Normal "/home/app/public".
Proof.
  exact (proj1 (buildPath_expands_home unix "/home/app" "/public" eq_refl eq_refl)).
Defined.

Lemma buildPath_keeps_local_prefix_witness :
  exists p,
    buildPath unix (PathArray ["./site"; "public"]) = Normal p
    /\ String.prefix "./" p = true.
Proof.
  destruct (proj2 (buildPath_keeps_local_prefix unix "./site" ["public"]))
    as (p & Hp & Hlocal & _).
  exists p. split; [exact Hp | exact (Hlocal eq_refl)].
Defined.

Lemma reinitialize_restarts_adapters_only_witness :
  let r := Index.initialize "/app/resource" boot (Index.AuthPlain None) None
             Index.Starting running in
  fst r = Index.Ready
  /\ Index.since running (snd r) = [Index.ApiFn boot; Index.StartAdapters]
  /\ Index.w_auth (snd r) = Some allow.
Proof.
  destruct (Boot.reinitialize_restarts_adapters_only "/app/resource" boot
              (Index.AuthPlain None) None Index.Starting running eq_refl)
    as (H1 & H2 & _ & _ & H5 & _).
  exact (conj H1 (conj H2 H5)).
Defined.

Lemma unsettled_provider_wires_nothing_witness :
  let r := Index.initialize "/app/resource" boot
             (Index.AuthPromise (Index.AuthRejected boom)) None
             (Index.Started described) Index.fresh in
  Index.since Index.fresh (snd r) = [Index.ApiFn boot; Index.MiddlewareLib boot]
  /\ Index.initialized (snd r) = false
  /\ fst r = Index.Failed boom.
Proof.
  destruct (Boot.unsettled_provider_wires_nothing "/app/resource" boot
              (Index.AuthPromise (Index.AuthRejected boom)) None
              (Index.Started described) Index.fresh eq_refl eq_refl)
    as (H1 & H2 & _ & _ & H5).
  exact (conj H1 (conj H2 H5)).
Defined.

Lemma first_initialize_wires_once_witness :
  let w' := running in
  Index.w_auth w' = Some allow
  /\ filter Index.isHttpFn (Index.since Index.fresh w') =
       [Index.HttpFn boot (Some allow)]
  /\ Index.initialized w' = true.
Proof.
  destruct (Boot.first_initialize_wires_once "/app/resource" boot
              (Index.AuthPlain (Some allow)) None (Index.Started described)
              Index.fresh (Some allow) eq_refl eq_refl)
    as (H1 & _ & H3 & _ & _ & _ & _ & H8).
  exact (conj H1 (conj H3 H8)).
Defined.

Lemma second_initialize_after_start_witness :
  let w1 := snd (Index.initialize "/app/resource" boot
                   (Index.AuthPlain (Some allow)) None
                   (Index.StartFailed boom) Index.fresh) in
  let w2 := snd (Index.initialize "/app/resource" boot
                   (Index.AuthPlain None) None (Index.Started described) w1) in
  length (filter Index.isHttpFn (Index.since Index.fresh w2)) = 2%nat
  /\ Index.w_auth w2 = None.
Proof.
  destruct (Boot.second_initialize_after_start "/app/resource" boot boot
              (Index.AuthPlain (Some allow)) (Index.AuthPlain None) None None
              (Index.StartFailed boom) (Index.Started described) Index.fresh
              (Some allow) None eq_refl eq_refl eq_refl)
    as (H1 & _ & H3).
  exact (conj H1 H3).
Defined.

Lemma options_reply_follows_start_witness :
  filter Index.isMountOptions (Index.since Index.fresh running) =
    [Index.MountOptions "/api"]
  /\ Index.optionsMiddleware running "OPTIONS" =
       Index.Replied 200
         (Some {| Index.described := []; Index.prefix := Some "/api" |}).
Proof.
  destruct (Boot.options_reply_follows_start "/app/resource" boot
              (Index.AuthPlain (Some allow)) None (Index.Started described)
              Index.fresh (Some allow) eq_refl eq_refl eq_refl)
    as (H1 & H2 & _).
  exact (conj H1 H2).
Defined.

Lemma advertised_prefix_agrees_witness :
  Index.advertisedPrefix boot = apiPrefixFor (stateWith defaultConfig None) widgets
  <-> exists p, cfg_apiPrefix defaultConfig = Some p /\ p <> "".
Proof.
  exact (Boot.advertised_prefix_agrees boot (stateWith defaultConfig None) widgets
           eq_refl eq_refl).
Defined.

End Checks.
